(** * vscode-docker: Azure registry explorer nodes and the restart command

    A shallow embedding of

    - [src/explorer/models/azureRegistryNodes.ts]: the node classes of the
      Azure Container Registry branch of the explorer tree, and
    - the [restartContainer] command that follows it in the source,

    together with the properties the specification states about them.

    Methods that only read their receiver are written in ExtLib's [state]
    monad over the receiver, the bodies run under
    [callWithTelemetryAndErrorHandling] in [stateT IActionContext (sum Error)],
    and the restart callbacks in [state] over the variables the closure
    captures. *)

From Stdlib Require Import Ascii String List Arith Bool Lia Permutation.
From ExtLib Require Import Structures.Monad Structures.MonadState Structures.MonadExc.
From ExtLib Require Import Data.Monads.StateMonad Data.Monads.EitherMonad.
Import ListNotations.
Import MonadNotation.
Local Open Scope monad_scope.
Local Open Scope string_scope.
#[local] Existing Instance Monad_stateT.

Set Implicit Arguments.

(** ** JavaScript values shared by both parts *)

(** A JavaScript [Error]; only [message] is read by the code. *)
Record Error : Type := mkError { message : string }.

(** The outcome of a call that may throw (or of an awaited promise that may
    reject): [inl e] is the exception, [inr v] the value. *)
Definition Result (A : Type) : Type := (Error + A)%type.

(** [Array.prototype.push] on a list held in a local variable. *)
Definition push {A : Type} (arr : list A) (x : A) : list A := arr ++ [x].

(** [for (let x of xs) { acc.push(f x) }]: the loop visits [xs] in order. *)
Definition for_of_push {A B : Type} (xs : list A) (f : A -> B) (acc : list B) : list B :=
  fold_left (fun arr x => push arr (f x)) xs acc.

(** ** Part 1: azureRegistryNodes.ts *)

(** The part of the [vscode] API the nodes produce. *)
Module vscode.

Module TreeItemCollapsibleState.
Inductive t : Type := None | Collapsed | Expanded.
End TreeItemCollapsibleState.

Record Command : Type := { title : string; command_id : string }.

(** [IconPath] of nodeBase.ts: a light and a dark image. *)
Record IconPath : Type := { light : string; dark : string }.

(** [vscode.TreeItem] as an object literal: a field the literal leaves out
    is [None]. *)
Record TreeItem : Type := {
  label : string;
  collapsibleState : TreeItemCollapsibleState.t;
  contextValue : option string;
  iconPath : option IconPath;
  command : option Command
}.

End vscode.

(** The Azure SDK types the nodes carry around without looking inside. *)
Class AzureTypes : Type := {
  AzureAccount : Type;    (* typings/azure-account.api *)
  Registry : Type;        (* azure-arm-containerregistry ContainerModels.Registry *)
  Subscription : Type;    (* azure-arm-resource SubscriptionModels.Subscription *)
  Date : Type             (* the JavaScript Date of an image's creation *)
}.

(** [Repository] of utils/Azure/models/repository: its declaration is outside
    this file, the code here reads [name] only. *)
Record Repository : Type := { name : string }.

(** [AzureImage] of utils/Azure/models/image, with the fields read here. *)
Record AzureImage `{AzureTypes} : Type := {
  img_subscription : Subscription;
  img_registry : Registry;
  img_repository : Repository;
  img_tag : string;
  img_created : Date
}.

(** [IActionContext], the [this] of a callback run by
    [callWithTelemetryAndErrorHandling]; [properties] is a string-keyed
    object, kept as an association list with the latest write first. *)
Record IActionContext : Type := {
  suppressTelemetry : bool;
  properties : list (string * string)
}.

Definition set_suppressTelemetry (b : bool) (ctx : IActionContext) : IActionContext :=
  {| suppressTelemetry := b; properties := properties ctx |}.

Definition set_property (k v : string) (ctx : IActionContext) : IActionContext :=
  {| suppressTelemetry := suppressTelemetry ctx;
     properties := (k, v) :: filter (fun kv => negb (String.eqb (fst kv) k)) (properties ctx) |}.

(** An [async function (this: IActionContext)]: it updates the context and
    either returns or throws. *)
Abbreviation Callback := (stateT IActionContext (sum Error)).

(** [await e]: the value of a settled promise, or its rejection rethrown. *)
Definition await {A : Type} (r : Result A) : Callback A :=
  mkStateT (fun ctx => match r with
                       | inl e => inl e
                       | inr v => inr (v, ctx)
                       end).

(** What this file imports from the rest of the extension and from
    libraries.  The three awaited calls may reject; [getLoginServer] and
    [formatTag] are taken at the type the code uses them at, a function to
    [string].  [callWithTelemetryAndErrorHandling] belongs to
    vscode-azureextensionui; all that is assumed of it is that a callback
    which returns [a] makes the wrapper return [a]. *)
Class Collaborators `{AzureTypes} : Type := {
  imagesPath : string;                                             (* ../../constants *)
  path_join : list string -> string;                               (* path.join *)
  getRepositoriesByRegistry : Registry -> Result (list Repository);   (* acrTools *)
  Repository_Create : Registry -> string -> Result Repository;     (* Repository.Create *)
  getImagesByRepository : Repository -> Result (list AzureImage);  (* acrTools *)
  getLoginServer : Registry -> string;                             (* utils/nonNull *)
  formatTag : string -> Date -> string;                            (* ./commonRegistryUtils *)
  callWithTelemetryAndErrorHandling :
    forall A : Type, string -> Callback A -> Result (option A);
  callWithTelemetryAndErrorHandling_returns :
    forall (A : Type) (callbackId : string) (callback : Callback A) (a : A),
      (forall ctx, exists ctx', runStateT callback ctx = inr (a, ctx')) ->
      callWithTelemetryAndErrorHandling callbackId callback = inr (Some a)
}.

(** A method that may read and assign the fields of its receiver [T]. *)
Definition Method (T A : Type) : Type := state T A.

(** [TaskRootNode] of ./taskNode: declared outside this file; the object keeps
    the arguments of its constructor. *)
Module TaskRootNode.
Record t `{AzureTypes} : Type := new {
  label : string;
  azureAccount : option AzureAccount;
  subscription : Subscription;
  registry : Registry
}.
Arguments new {_} label azureAccount subscription registry.
End TaskRootNode.

Module AzureRegistryNode.

Record t `{AzureTypes} : Type := {
  label : string;
  azureAccount : option AzureAccount;
  registry : Registry;
  subscription : Subscription;
  contextValue : string;
  iconPath : vscode.IconPath
}.

(** The constructor with the field initialisers of the class body. *)
Definition new `{Collaborators} (label : string) (azureAccount : option AzureAccount)
    (registry : Registry) (subscription : Subscription) : t :=
  {| label := label;
     azureAccount := azureAccount;
     registry := registry;
     subscription := subscription;
     contextValue := "azureRegistryNode";
     iconPath := {| vscode.light := path_join [imagesPath; "light"; "Registry_16x.svg"];
                    vscode.dark := path_join [imagesPath; "dark"; "Registry_16x.svg"] |} |}.

Definition getTreeItem `{AzureTypes} : Method t vscode.TreeItem :=
  l <- gets label ;;
  c <- gets contextValue ;;
  i <- gets iconPath ;;
  ret {| vscode.label := l;
         vscode.collapsibleState := vscode.TreeItemCollapsibleState.Collapsed;
         vscode.contextValue := Some c;
         vscode.iconPath := Some i;
         vscode.command := None |}.

End AzureRegistryNode.

Module AzureRepositoryNode.

(** [P] is the type of the [parent] reference ([NodeBase] below). *)
Record t `{AzureTypes} (P : Type) : Type := {
  label : string;
  parent : P;
  azureAccount : option AzureAccount;
  subscription : Subscription;
  registry : Registry;
  repositoryName : string;
  contextValue : string;
  iconPath : vscode.IconPath
}.

Definition static_contextValue : string := "azureRepositoryNode".

Definition new `{Collaborators} {P : Type} (label : string) (parent : P)
    (azureAccount : option AzureAccount) (subscription : Subscription)
    (registry : Registry) (repositoryName : string) : t P :=
  {| label := label;
     parent := parent;
     azureAccount := azureAccount;
     subscription := subscription;
     registry := registry;
     repositoryName := repositoryName;
     contextValue := static_contextValue;
     iconPath := {| vscode.light := path_join [imagesPath; "light"; "Repository_16x.svg"];
                    vscode.dark := path_join [imagesPath; "dark"; "Repository_16x.svg"] |} |}.

Definition getTreeItem `{AzureTypes} {P : Type} : Method (t P) vscode.TreeItem :=
  l <- gets (@label _ P) ;;
  c <- gets (@contextValue _ P) ;;
  i <- gets (@iconPath _ P) ;;
  ret {| vscode.label := l;
         vscode.collapsibleState := vscode.TreeItemCollapsibleState.Collapsed;
         vscode.contextValue := Some c;
         vscode.iconPath := Some i;
         vscode.command := None |}.

End AzureRepositoryNode.

Module AzureImageTagNode.

Record t `{AzureTypes} (P : Type) : Type := {
  label : string;                 (* inherited from NodeBase, set by super(...) *)
  azureAccount : option AzureAccount;
  parent : P;
  subscription : Subscription;
  registry : Registry;
  serverUrl : string;
  repositoryName : string;
  tag : string;
  created : Date;
  contextValue : string
}.

Definition static_contextValue : string := "azureImageTagNode".

Definition getImageNameWithTag (repositoryName tag : string) : string :=
  repositoryName ++ ":" ++ tag.

Definition new `{AzureTypes} {P : Type} (azureAccount : option AzureAccount) (parent : P)
    (subscription : Subscription) (registry : Registry) (serverUrl : string)
    (repositoryName tag : string) (created : Date) : t P :=
  {| label := getImageNameWithTag repositoryName tag;
     azureAccount := azureAccount;
     parent := parent;
     subscription := subscription;
     registry := registry;
     serverUrl := serverUrl;
     repositoryName := repositoryName;
     tag := tag;
     created := created;
     contextValue := static_contextValue |}.

Definition getTreeItem `{Collaborators} {P : Type} : Method (t P) vscode.TreeItem :=
  l <- gets (@label _ P) ;;
  d <- gets (@created _ P) ;;
  c <- gets (@contextValue _ P) ;;
  ret {| vscode.label := formatTag l d;
         vscode.collapsibleState := vscode.TreeItemCollapsibleState.None;
         vscode.contextValue := Some c;
         vscode.iconPath := None;
         vscode.command := None |}.

End AzureImageTagNode.

Module AzureNotSignedInNode.

Record t : Type := { label : string; contextValue : string }.

Definition new : t :=
  {| label := "Sign in to Azure..."; contextValue := "azureNotSignedInNode" |}.

Definition getTreeItem : Method t vscode.TreeItem :=
  l <- gets label ;;
  l' <- gets label ;;
  ret {| vscode.label := l;
         vscode.collapsibleState := vscode.TreeItemCollapsibleState.None;
         vscode.contextValue := None;
         vscode.iconPath := None;
         vscode.command := Some {| vscode.title := l'; vscode.command_id := "azure-account.login" |} |}.

End AzureNotSignedInNode.

Module AzureLoadingNode.

Record t : Type := { label : string; contextValue : string }.

Definition new : t :=
  {| label := "Loading..."; contextValue := "azureLoadingNode" |}.

Definition getTreeItem : Method t vscode.TreeItem :=
  l <- gets label ;;
  ret {| vscode.label := l;
         vscode.collapsibleState := vscode.TreeItemCollapsibleState.None;
         vscode.contextValue := None;
         vscode.iconPath := None;
         vscode.command := None |}.

End AzureLoadingNode.

(** [NodeBase]: a reference typed [NodeBase] holds an object of one of the
    node classes. *)
#[warnings="-register-all"]
Inductive NodeBase `{AzureTypes} : Type :=
| OfTaskRootNode (n : TaskRootNode.t)
| OfAzureRegistryNode (n : AzureRegistryNode.t)
| OfAzureRepositoryNode (n : AzureRepositoryNode.t NodeBase)
| OfAzureImageTagNode (n : AzureImageTagNode.t NodeBase)
| OfAzureNotSignedInNode (n : AzureNotSignedInNode.t)
| OfAzureLoadingNode (n : AzureLoadingNode.t).

(** [this.label] through a [NodeBase] reference. *)
Definition NodeBase_label `{AzureTypes} (n : NodeBase) : string :=
  match n with
  | OfTaskRootNode n => TaskRootNode.label n
  | OfAzureRegistryNode n => AzureRegistryNode.label n
  | OfAzureRepositoryNode n => AzureRepositoryNode.label n
  | OfAzureImageTagNode n => AzureImageTagNode.label n
  | OfAzureNotSignedInNode n => AzureNotSignedInNode.label n
  | OfAzureLoadingNode n => AzureLoadingNode.label n
  end.

(** [AzureRegistryNode.getChildren(element)]; [me] is [this]. *)
Definition AzureRegistryNode_getChildren `{Collaborators}
    (me element : AzureRegistryNode.t) : Result (option (list NodeBase)) :=
  callWithTelemetryAndErrorHandling "getChildren" (
    modify (set_suppressTelemetry true) ;;
    modify (set_property "source" "azureRegistryNodes") ;;
    let repoNodes : list NodeBase := [] in
    let taskNode := TaskRootNode.new "Tasks" (AzureRegistryNode.azureAccount element)
                      (AzureRegistryNode.subscription element)
                      (AzureRegistryNode.registry element) in
    let repoNodes := push repoNodes (OfTaskRootNode taskNode) in
    match AzureRegistryNode.azureAccount me with
    | None => ret []
    | Some _ =>
        repositories <- await (getRepositoriesByRegistry (AzureRegistryNode.registry element)) ;;
        let repoNodes :=
          for_of_push repositories
            (fun repository =>
               let node := AzureRepositoryNode.new
                             (name repository)
                             (OfAzureRegistryNode element)
                             (AzureRegistryNode.azureAccount me)
                             (AzureRegistryNode.subscription element)
                             (AzureRegistryNode.registry element)
                             (AzureRegistryNode.label element) in
               OfAzureRepositoryNode node)
            repoNodes in
        ret repoNodes
    end).

(** [AzureRepositoryNode.getChildren(element)]; [me] is assigned and not
    used by the body. *)
Definition AzureRepositoryNode_getChildren `{Collaborators}
    (me element : AzureRepositoryNode.t NodeBase)
    : Result (option (list (AzureImageTagNode.t NodeBase))) :=
  callWithTelemetryAndErrorHandling "getChildren" (
    modify (set_suppressTelemetry true) ;;
    modify (set_property "source" "azureRepositoryNode") ;;
    let imageNodes : list (AzureImageTagNode.t NodeBase) := [] in
    repo <- await (Repository_Create (AzureRepositoryNode.registry element)
                                     (AzureRepositoryNode.label element)) ;;
    images <- await (getImagesByRepository repo) ;;
    let imageNodes :=
      for_of_push images
        (fun img =>
           AzureImageTagNode.new
             (AzureRepositoryNode.azureAccount element)
             (OfAzureRepositoryNode element)
             (img_subscription img)
             (img_registry img)
             (getLoginServer (img_registry img))
             (name (img_repository img))
             (img_tag img)
             (img_created img))
        imageNodes in
    ret imageNodes).

(** The [repositoryName] fields of the repository nodes of a child list. *)
Definition repositoryNames `{AzureTypes} (children : list NodeBase) : list string :=
  flat_map (fun child => match child with
                         | OfAzureRepositoryNode n => [AzureRepositoryNode.repositoryName n]
                         | _ => []
                         end) children.

(** Whether a child is the task root node. *)
Definition is_task_root `{AzureTypes} (child : NodeBase) : bool :=
  match child with
  | OfTaskRootNode _ => true
  | _ => false
  end.

(** *** The field declarations of the node classes

    Each instance field of the five classes with its [readonly] modifier, in
    the order of the source: constructor parameter properties first, then the
    fields of the class body. *)
Inductive NodeClass : Type :=
| ClsNodeBase
| ClsAzureRegistryNode
| ClsAzureRepositoryNode
| ClsAzureImageTagNode
| ClsAzureNotSignedInNode
| ClsAzureLoadingNode.

Record FieldDecl : Type := {
  declaredIn : NodeClass;
  fieldName : string;
  isReadonly : bool
}.

(** Modelled from the spec: the base class [NodeBase] of ./nodeBase is not in
    this file; it declares the [label] that [AzureImageTagNode],
    [AzureNotSignedInNode] and [AzureLoadingNode] inherit, and the spec has
    nodes "effectively immutable after construction except for the mutable
    [parent] reference on a repository node". *)
Definition NodeBase_fields : list FieldDecl :=
  [ {| declaredIn := ClsNodeBase; fieldName := "label"; isReadonly := true |} ].

Definition AzureRegistryNode_fields : list FieldDecl :=
  [ {| declaredIn := ClsAzureRegistryNode; fieldName := "label"; isReadonly := true |};
    {| declaredIn := ClsAzureRegistryNode; fieldName := "azureAccount"; isReadonly := true |};
    {| declaredIn := ClsAzureRegistryNode; fieldName := "registry"; isReadonly := true |};
    {| declaredIn := ClsAzureRegistryNode; fieldName := "subscription"; isReadonly := true |};
    {| declaredIn := ClsAzureRegistryNode; fieldName := "contextValue"; isReadonly := true |};
    {| declaredIn := ClsAzureRegistryNode; fieldName := "iconPath"; isReadonly := true |} ].

Definition AzureRepositoryNode_fields : list FieldDecl :=
  [ {| declaredIn := ClsAzureRepositoryNode; fieldName := "label"; isReadonly := true |};
    {| declaredIn := ClsAzureRepositoryNode; fieldName := "parent"; isReadonly := false |};
    {| declaredIn := ClsAzureRepositoryNode; fieldName := "azureAccount"; isReadonly := true |};
    {| declaredIn := ClsAzureRepositoryNode; fieldName := "subscription"; isReadonly := true |};
    {| declaredIn := ClsAzureRepositoryNode; fieldName := "registry"; isReadonly := true |};
    {| declaredIn := ClsAzureRepositoryNode; fieldName := "repositoryName"; isReadonly := true |};
    {| declaredIn := ClsAzureRepositoryNode; fieldName := "contextValue"; isReadonly := true |};
    {| declaredIn := ClsAzureRepositoryNode; fieldName := "iconPath"; isReadonly := true |} ].

Definition AzureImageTagNode_fields : list FieldDecl :=
  [ {| declaredIn := ClsAzureImageTagNode; fieldName := "azureAccount"; isReadonly := true |};
    {| declaredIn := ClsAzureImageTagNode; fieldName := "parent"; isReadonly := true |};
    {| declaredIn := ClsAzureImageTagNode; fieldName := "subscription"; isReadonly := true |};
    {| declaredIn := ClsAzureImageTagNode; fieldName := "registry"; isReadonly := true |};
    {| declaredIn := ClsAzureImageTagNode; fieldName := "serverUrl"; isReadonly := true |};
    {| declaredIn := ClsAzureImageTagNode; fieldName := "repositoryName"; isReadonly := true |};
    {| declaredIn := ClsAzureImageTagNode; fieldName := "tag"; isReadonly := true |};
    {| declaredIn := ClsAzureImageTagNode; fieldName := "created"; isReadonly := true |};
    {| declaredIn := ClsAzureImageTagNode; fieldName := "contextValue"; isReadonly := true |} ].

Definition AzureNotSignedInNode_fields : list FieldDecl :=
  [ {| declaredIn := ClsAzureNotSignedInNode; fieldName := "contextValue"; isReadonly := true |} ].

Definition AzureLoadingNode_fields : list FieldDecl :=
  [ {| declaredIn := ClsAzureLoadingNode; fieldName := "contextValue"; isReadonly := true |} ].

Definition declaredFields : list FieldDecl :=
  NodeBase_fields ++ AzureRegistryNode_fields ++ AzureRepositoryNode_fields
    ++ AzureImageTagNode_fields ++ AzureNotSignedInNode_fields ++ AzureLoadingNode_fields.

(** The fields an assignment outside the constructor may target. *)
Definition assignableFields : list FieldDecl :=
  filter (fun d => negb (isReadonly d)) declaredFields.

(** *** A registry for the examples

    The scenario of the specification: registry [myregistry] lists the
    repositories [app] and [base]; [app] holds one image tagged [latest]. *)
Definition sampleTypes : AzureTypes :=
  {| AzureAccount := string; Registry := string; Subscription := string; Date := nat |}.

Definition sample_image (repository : Repository) : @AzureImage sampleTypes :=
  {| img_subscription := "subscription-1" : @Subscription sampleTypes;
     img_registry := "myregistry" : @Registry sampleTypes;
     img_repository := repository;
     img_tag := "latest";
     img_created := 0 : @Date sampleTypes |}.

(** A wrapper that runs the callback on an empty context and turns a throw
    into [undefined]. *)
Definition sample_wrapper (A : Type) (callbackId : string) (callback : Callback A)
    : Result (option A) :=
  match runStateT callback {| suppressTelemetry := false; properties := [] |} with
  | inl _ => inr None
  | inr (a, _) => inr (Some a)
  end.

Definition sampleCollaborators : @Collaborators sampleTypes.
Proof.
  refine {| imagesPath := "images";
            path_join := String.concat "/";
            getRepositoriesByRegistry :=
              fun _ => inr [ {| name := "app" |}; {| name := "base" |} ];
            Repository_Create := fun _ label => inr {| name := label |};
            getImagesByRepository :=
              fun repository =>
                if String.eqb (name repository) "app"
                then inr [sample_image repository] else inr [];
            getLoginServer := fun registry : @Registry sampleTypes => registry ++ ".azurecr.io";
            formatTag := fun label _ => label ++ " (a moment ago)";
            callWithTelemetryAndErrorHandling := sample_wrapper;
            callWithTelemetryAndErrorHandling_returns := _ |}.
  intros A callbackId callback a H; unfold sample_wrapper.
  destruct (H {| suppressTelemetry := false; properties := [] |}) as [ctx' E].
  rewrite E; reflexivity.
Defined.

Definition sample_registry_node : @AzureRegistryNode.t sampleTypes :=
  @AzureRegistryNode.new sampleTypes sampleCollaborators
    "myregistry" (Some "account") "myregistry" "subscription-1".

Definition sample_repository_node (repository : string)
    : @AzureRepositoryNode.t sampleTypes (@NodeBase sampleTypes) :=
  @AzureRepositoryNode.new sampleTypes sampleCollaborators _
    repository (OfAzureRegistryNode sample_registry_node)
    (Some "account") "subscription-1" "myregistry" "myregistry".

Definition sample_signed_out_node : @AzureRegistryNode.t sampleTypes :=
  @AzureRegistryNode.new sampleTypes sampleCollaborators
    "myregistry" None "myregistry" "subscription-1".

(** *** The callbacks on their own

    The [async function (this: IActionContext)] that each [getChildren] hands
    to [callWithTelemetryAndErrorHandling], as a definition of its own, so
    that what it does to the context and what it throws can be stated. *)
Definition AzureRegistryNode_getChildren_callback `{Collaborators}
    (me element : AzureRegistryNode.t) : Callback (list NodeBase) :=
  modify (set_suppressTelemetry true) ;;
  modify (set_property "source" "azureRegistryNodes") ;;
  let repoNodes : list NodeBase := [] in
  let taskNode := TaskRootNode.new "Tasks" (AzureRegistryNode.azureAccount element)
                    (AzureRegistryNode.subscription element)
                    (AzureRegistryNode.registry element) in
  let repoNodes := push repoNodes (OfTaskRootNode taskNode) in
  match AzureRegistryNode.azureAccount me with
  | None => ret []
  | Some _ =>
      repositories <- await (getRepositoriesByRegistry (AzureRegistryNode.registry element)) ;;
      let repoNodes :=
        for_of_push repositories
          (fun repository =>
             let node := AzureRepositoryNode.new
                           (name repository)
                           (OfAzureRegistryNode element)
                           (AzureRegistryNode.azureAccount me)
                           (AzureRegistryNode.subscription element)
                           (AzureRegistryNode.registry element)
                           (AzureRegistryNode.label element) in
             OfAzureRepositoryNode node)
          repoNodes in
      ret repoNodes
  end.

Definition AzureRepositoryNode_getChildren_callback `{Collaborators}
    (me element : AzureRepositoryNode.t NodeBase)
    : Callback (list (AzureImageTagNode.t NodeBase)) :=
  modify (set_suppressTelemetry true) ;;
  modify (set_property "source" "azureRepositoryNode") ;;
  let imageNodes : list (AzureImageTagNode.t NodeBase) := [] in
  repo <- await (Repository_Create (AzureRepositoryNode.registry element)
                                   (AzureRepositoryNode.label element)) ;;
  images <- await (getImagesByRepository repo) ;;
  let imageNodes :=
    for_of_push images
      (fun img =>
         AzureImageTagNode.new
           (AzureRepositoryNode.azureAccount element)
           (OfAzureRepositoryNode element)
           (img_subscription img)
           (img_registry img)
           (getLoginServer (img_registry img))
           (name (img_repository img))
           (img_tag img)
           (img_created img))
      imageNodes in
  ret imageNodes.

(** Reading [ctx.properties[k]]; [None] is [undefined]. *)
Definition get_property (k : string) (ctx : IActionContext) : option string :=
  match find (fun kv => String.eqb (fst kv) k) (properties ctx) with
  | Some kv => Some (snd kv)
  | None => None
  end.

(** Whether a string holds a colon. *)
Fixpoint has_colon (s : string) : bool :=
  match s with
  | EmptyString => false
  | String c rest => Ascii.eqb c ":"%char || has_colon rest
  end.

(** The image tag node that [AzureRepositoryNode.getChildren(element)] builds
    for one image of the listing. *)
Definition image_tag_node_of `{Collaborators}
    (element : AzureRepositoryNode.t NodeBase) (img : AzureImage)
    : AzureImageTagNode.t NodeBase :=
  AzureImageTagNode.new
    (AzureRepositoryNode.azureAccount element)
    (OfAzureRepositoryNode element)
    (img_subscription img)
    (img_registry img)
    (getLoginServer (img_registry img))
    (name (img_repository img))
    (img_tag img)
    (img_created img).

(** Collaborators whose registry cannot be reached: every awaited call
    rejects with the same error. *)
Definition unreachable : Error := mkError "getaddrinfo ENOTFOUND myregistry.azurecr.io".

Definition offlineCollaborators : @Collaborators sampleTypes.
Proof.
  refine {| imagesPath := "images";
            path_join := String.concat "/";
            getRepositoriesByRegistry := fun _ => inl unreachable;
            Repository_Create := fun _ _ => inl unreachable;
            getImagesByRepository := fun _ => inl unreachable;
            getLoginServer := fun registry : @Registry sampleTypes => registry ++ ".azurecr.io";
            formatTag := fun label _ => label ++ " (a moment ago)";
            callWithTelemetryAndErrorHandling := sample_wrapper;
            callWithTelemetryAndErrorHandling_returns := _ |}.
  intros A callbackId callback a H; unfold sample_wrapper.
  destruct (H {| suppressTelemetry := false; properties := [] |}) as [ctx' E].
  rewrite E; reflexivity.
Defined.

(** A context that already carries a property, for the examples. *)
Definition sample_context : IActionContext :=
  {| suppressTelemetry := false;
     properties := [("source", "unknown"); ("isActivationEvent", "false")] |}.

(** ** Part 2: the restartContainer command *)

Module RestartContainer.

(** dockerode's [ContainerDesc]; the command reads [Id] only. *)
Record ContainerDesc : Type := { Id : string }.

(** The [context] argument: [undefined], a [RootNode], or a [ContainerNode]
    whose [containerDesc] may be missing. *)
Inductive Context : Type :=
| CtxUndefined
| CtxRootNode
| CtxContainerNode (containerDesc : option ContainerDesc).

(** The state of a JavaScript promise. *)
Inductive PromiseState : Type := Pending | Fulfilled | Rejected.

(** The statements with an effect outside the closure, and the counter
    bump, in the order they are executed. *)
Inductive Effect : Type :=
| Restart (id : string)                 (* docker.getContainer(id).restart(cb) *)
| SetStatusBarMessage (text : string)   (* vscode.window.setStatusBarMessage *)
| Increment                             (* containerCounter++ *)
| ShowErrorMessage (msg : string)       (* vscode.window.showErrorMessage *)
| RefreshContainers                     (* dockerExplorerProvider.refreshContainers() *)
| Reject                                (* reject() *)
| Resolve.                              (* resolve() *)

(** The variables the restart callbacks share, the promise behind the
    status-bar message, the restart calls the engine has not answered yet,
    and the effects so far (oldest first). *)
Record Closure : Type := {
  numContainers : nat;
  containerCounter : nat;
  promise : PromiseState;
  inFlight : list string;
  trace : list Effect
}.

Definition emit (e : Effect) : state Closure unit :=
  s <- get ;;
  put {| numContainers := numContainers s;
         containerCounter := containerCounter s;
         promise := promise s;
         inFlight := inFlight s;
         trace := trace s ++ [e] |}.

(** A promise is settled by the first [resolve()] or [reject()] only. *)
Definition settle_promise (outcome p : PromiseState) : PromiseState :=
  match p with
  | Pending => outcome
  | settled => settled
  end.

Definition settle (outcome : PromiseState) : state Closure unit :=
  s <- get ;;
  put {| numContainers := numContainers s;
         containerCounter := containerCounter s;
         promise := settle_promise outcome (promise s);
         inFlight := inFlight s;
         trace := trace s |}.

Definition increment : state Closure unit :=
  s <- get ;;
  put {| numContainers := numContainers s;
         containerCounter := containerCounter s + 1;
         promise := promise s;
         inFlight := inFlight s;
         trace := trace s |} ;;
  emit Increment.

Definition showErrorMessage (msg : string) : state Closure unit := emit (ShowErrorMessage msg).
Definition refreshContainers : state Closure unit := emit RefreshContainers.
Definition reject : state Closure unit := emit Reject ;; settle Rejected.
Definition resolve : state Closure unit := emit Resolve ;; settle Fulfilled.

(** [docker.getContainer(id).restart(cb)]: the call is sent, its callback
    comes later. *)
Definition restart (id : string) : state Closure unit :=
  emit (Restart id) ;;
  s <- get ;;
  put {| numContainers := numContainers s;
         containerCounter := containerCounter s;
         promise := promise s;
         inFlight := inFlight s ++ [id];
         trace := trace s |}.

(** The callback [(err, _data) => { ... }] handed to [restart]. *)
Definition callback (err : option Error) : state Closure unit :=
  increment ;;
  match err with
  | Some e =>
      showErrorMessage (message e) ;;
      refreshContainers ;;
      reject
  | None => ret tt
  end ;;
  c <- gets containerCounter ;;
  n <- gets numContainers ;;
  if Nat.eqb c n then
    refreshContainers ;;
    resolve
  else ret tt.

(** [containersToRestart.forEach(f)]. *)
Fixpoint forEach {A : Type} (xs : list A) (f : A -> state Closure unit) : state Closure unit :=
  match xs with
  | [] => ret tt
  | x :: rest => f x ;; forEach rest f
  end.

(** The executor of [new Promise((resolve, reject) => { ... })]. *)
Definition executor (containersToRestart : list ContainerDesc) : state Closure unit :=
  forEach containersToRestart (fun container => restart (Id container)).

(** The closure when the promise is created. *)
Definition fresh (containersToRestart : list ContainerDesc) : Closure :=
  {| numContainers := length containersToRestart;
     containerCounter := 0;
     promise := Pending;
     inFlight := [];
     trace := [] |}.

(** The statements of [restartContainer] from [numContainers] on: the
    promise is built (its executor runs at once), then handed to the
    status bar. *)
Definition launch (containersToRestart : list ContainerDesc) : Closure :=
  execState (executor containersToRestart ;;
             emit (SetStatusBarMessage "Docker: Restarting Container(s)..."))
            (fresh containersToRestart).

(** The choice of the containers; [quickPick] is what awaiting
    [quickPickContainerOrAll(actionContext, opts)] gives. *)
Definition containersToRestart (quickPick : Result (list ContainerDesc))
    (context : Context) : Result (list ContainerDesc) :=
  match context with
  | CtxContainerNode (Some containerDesc) => inr [containerDesc]
  | _ => quickPick
  end.

Definition restartContainer (quickPick : Result (list ContainerDesc))
    (context : Context) : Result Closure :=
  match containersToRestart quickPick context with
  | inl e => inl e
  | inr cs => inr (launch cs)
  end.

(** *** The engine answering

    A delivery is the engine calling back for one restart call in flight,
    with an error or without.  A schedule is the deliveries in the order
    they happen; the code fixes no order. *)
Record Delivery : Type := { target : string; outcome : option Error }.

Fixpoint take_out (id : string) (ids : list string) : option (list string) :=
  match ids with
  | [] => None
  | x :: rest =>
      if String.eqb x id then Some rest
      else match take_out id rest with
           | Some rest' => Some (x :: rest')
           | None => None
           end
  end.

(** One delivery; [None] when no such call is in flight. *)
Definition deliver (d : Delivery) (s : Closure) : option Closure :=
  match take_out (target d) (inFlight s) with
  | None => None
  | Some rest =>
      Some (execState (callback (outcome d))
              {| numContainers := numContainers s;
                 containerCounter := containerCounter s;
                 promise := promise s;
                 inFlight := rest;
                 trace := trace s |})
  end.

Fixpoint run (schedule : list Delivery) (s : Closure) : option Closure :=
  match schedule with
  | [] => Some s
  | d :: rest =>
      match deliver d s with
      | Some s' => run rest s'
      | None => None
      end
  end.

(** Every call answered without an error, in the order the calls were sent. *)
Definition all_succeed_in_order (cs : list ContainerDesc) : list Delivery :=
  map (fun c => {| target := Id c; outcome := None |}) cs.

Definition succeeded (d : Delivery) : bool :=
  match outcome d with
  | None => true
  | Some _ => false
  end.

Definition is_refresh (e : Effect) : bool :=
  match e with RefreshContainers => true | _ => false end.
Definition is_resolve (e : Effect) : bool :=
  match e with Resolve => true | _ => false end.
Definition is_reject (e : Effect) : bool :=
  match e with Reject => true | _ => false end.
Definition is_restart (e : Effect) : bool :=
  match e with Restart _ => true | _ => false end.
Definition is_increment (e : Effect) : bool :=
  match e with Increment => true | _ => false end.

(** How often an effect of a kind happened. *)
Definition count (kind : Effect -> bool) (s : Closure) : nat :=
  length (filter kind (trace s)).

(** The number of deliveries of a schedule that carry an error. *)
Definition failures (schedule : list Delivery) : nat :=
  length (filter (fun d => negb (succeeded d)) schedule).

(** The effects of the two [if] statements of the callback. *)
Definition error_effects (err : option Error) : list Effect :=
  match err with
  | Some e => [ShowErrorMessage (message e); RefreshContainers; Reject]
  | None => []
  end.

Definition completion_effects (last : bool) : list Effect :=
  if last then [RefreshContainers; Resolve] else [].

(** What holds of the closure between two deliveries. *)
Record consistent (s : Closure) : Prop := {
  answered_and_inFlight :
    containerCounter s + length (inFlight s) = numContainers s;
  increments_counted : count is_increment s = containerCounter s;
  restarts_counted : count is_restart s = numContainers s;
  resolve_at_completion :
    count is_resolve s =
    if Nat.eqb (containerCounter s) (numContainers s) && Nat.ltb 0 (containerCounter s)
    then 1 else 0;
  refresh_with_settling : count is_refresh s = count is_reject s + count is_resolve s;
  promise_from_calls :
    promise s =
    if Nat.ltb 0 (count is_reject s) then Rejected
    else if Nat.ltb 0 (count is_resolve s) then Fulfilled
    else Pending
}.

(** A batch of two containers and an engine error, for the examples. *)
Definition container_a : ContainerDesc := {| Id := "a" |}.
Definition container_b : ContainerDesc := {| Id := "b" |}.
Definition two_containers : list ContainerDesc := [container_a; container_b].
Definition no_such_container : Error := mkError "No such container".

(** The messages handed to [showErrorMessage], oldest first. *)
Definition shown_messages (s : Closure) : list string :=
  flat_map (fun e => match e with
                     | ShowErrorMessage msg => [msg]
                     | _ => []
                     end) (trace s).

(** The messages of the errors a schedule delivers, in its order. *)
Definition error_messages (schedule : list Delivery) : list string :=
  flat_map (fun d => match outcome d with
                     | Some e => [message e]
                     | None => []
                     end) schedule.

(** The effects a callback can have: all but sending a restart call and
    setting the status-bar message. *)
Definition from_callback (e : Effect) : bool :=
  match e with
  | Restart _ | SetStatusBarMessage _ => false
  | _ => true
  end.

(** All the answers have arrived. *)
Definition complete (cs : list ContainerDesc) (schedule : list Delivery) : bool :=
  Nat.eqb (length schedule) (length cs) && Nat.ltb 0 (length cs).

End RestartContainer.

(** * Properties *)

Unset Implicit Arguments.

(** ** The explorer nodes *)

Module AzureRegistryNodesFacts.

Local Open Scope list_scope.

Lemma for_of_push_map {A B : Type} (xs : list A) (f : A -> B) (acc : list B) :
  for_of_push xs f acc = acc ++ map f xs.
Proof.
  unfold for_of_push, push; revert acc; induction xs as [|x xs IH]; intros acc; cbn.
  - rewrite app_nil_r; reflexivity.
  - rewrite IH, <- app_assoc; reflexivity.
Qed.

Section WithCollaborators.
Context `{C : Collaborators}.

(** The children of a registry node whose account is present and whose
    repository listing answers. *)
Lemma registry_children (me element : AzureRegistryNode.t)
    (account : AzureAccount) (repositories : list Repository) :
  AzureRegistryNode.azureAccount me = Some account ->
  getRepositoriesByRegistry (AzureRegistryNode.registry element) = inr repositories ->
  AzureRegistryNode_getChildren me element =
  inr (Some
         (OfTaskRootNode
            (TaskRootNode.new "Tasks" (AzureRegistryNode.azureAccount element)
               (AzureRegistryNode.subscription element)
               (AzureRegistryNode.registry element))
          :: map (fun repository =>
                    OfAzureRepositoryNode
                      (AzureRepositoryNode.new
                         (name repository)
                         (OfAzureRegistryNode element)
                         (Some account)
                         (AzureRegistryNode.subscription element)
                         (AzureRegistryNode.registry element)
                         (AzureRegistryNode.label element)))
                 repositories)).
Proof.
  intros Hacc Hrepos; unfold AzureRegistryNode_getChildren.
  apply callWithTelemetryAndErrorHandling_returns; intros ctx.
  rewrite Hacc; cbn; rewrite Hrepos; cbn.
  eexists; rewrite for_of_push_map; reflexivity.
Qed.

(** C5.  With an account on the receiving node and a listing that answers
    with [k] repositories, the registry node has [k + 1] children: the
    task root node first, labelled [Tasks], then one repository node per
    repository, labelled with its name, in the order of the listing. *)
Theorem registry_children_task_then_repositories
    (me element : AzureRegistryNode.t)
    (account : AzureAccount) (repositories : list Repository) :
  AzureRegistryNode.azureAccount me = Some account ->
  getRepositoriesByRegistry (AzureRegistryNode.registry element) = inr repositories ->
  exists (task : TaskRootNode.t) (nodes : list (AzureRepositoryNode.t NodeBase)),
    AzureRegistryNode_getChildren me element =
      inr (Some (OfTaskRootNode task :: map OfAzureRepositoryNode nodes)) /\
    length (OfTaskRootNode task :: map OfAzureRepositoryNode nodes)
      = length repositories + 1 /\
    TaskRootNode.label task = "Tasks" /\
    length nodes = length repositories /\
    map (@AzureRepositoryNode.label _ _) nodes = map name repositories.
Proof.
  intros Hacc Hrepos.
  eexists; eexists; split.
  - rewrite (registry_children me element account repositories Hacc Hrepos).
    rewrite <- (map_map _ OfAzureRepositoryNode); reflexivity.
  - cbn [length]; rewrite !length_map, !map_map; cbn.
    repeat split; lia.
Qed.

(** C6.  Without an account on the receiving node the registry node has
    no children: the call returns the empty list, which holds no task
    root node, and does not throw. *)
Theorem registry_children_without_account (me element : AzureRegistryNode.t) :
  AzureRegistryNode.azureAccount me = None ->
  AzureRegistryNode_getChildren me element = inr (Some []) /\
  existsb is_task_root [] = false.
Proof.
  intros Hacc; split; [|reflexivity].
  unfold AzureRegistryNode_getChildren.
  apply callWithTelemetryAndErrorHandling_returns; intros ctx.
  rewrite Hacc; cbn; eexists; reflexivity.
Qed.

(** What [getChildren] stores in [repositoryName]: the label of the
    registry node, once per repository. *)
Lemma registry_children_repositoryNames (me element : AzureRegistryNode.t)
    (account : AzureAccount) (repositories : list Repository) :
  AzureRegistryNode.azureAccount me = Some account ->
  getRepositoriesByRegistry (AzureRegistryNode.registry element) = inr repositories ->
  exists children,
    AzureRegistryNode_getChildren me element = inr (Some children) /\
    repositoryNames children
      = map (fun _ => AzureRegistryNode.label element) repositories.
Proof.
  intros Hacc Hrepos; eexists; split.
  - apply (registry_children me element account repositories Hacc Hrepos).
  - unfold repositoryNames; cbn [flat_map app]; clear Hrepos.
    induction repositories as [|r rs IH]; cbn; [reflexivity|].
    f_equal; exact IH.
Qed.

(** C7.  When the repository handle is created and the image listing
    answers with [m] images, the repository node has [m] children, one
    image tag node per image in the order of the listing, each labelled
    with the image's repository name, a colon and the image's tag. *)
Theorem repository_children_one_per_image
    (me element : AzureRepositoryNode.t NodeBase)
    (repo : Repository) (images : list AzureImage) :
  Repository_Create (AzureRepositoryNode.registry element)
                    (AzureRepositoryNode.label element) = inr repo ->
  getImagesByRepository repo = inr images ->
  exists nodes : list (AzureImageTagNode.t NodeBase),
    AzureRepositoryNode_getChildren me element = inr (Some nodes) /\
    length nodes = length images /\
    map (@AzureImageTagNode.label _ _) nodes
      = map (fun img => name (img_repository img) ++ ":" ++ img_tag img)%string images /\
    map (@AzureImageTagNode.tag _ _) nodes = map img_tag images /\
    map (@AzureImageTagNode.created _ _) nodes = map img_created images.
Proof.
  intros Hrepo Himages; eexists; split.
  - unfold AzureRepositoryNode_getChildren.
    apply callWithTelemetryAndErrorHandling_returns; intros ctx.
    cbn; rewrite Hrepo; cbn; rewrite Himages; cbn.
    eexists; rewrite for_of_push_map; reflexivity.
  - cbn [app]; rewrite length_map, !map_map; cbn.
    repeat split.
Qed.

(** C8.  The tree item of an image tag node is never expandable, and its
    label is [formatTag] applied to the node's label, which is the
    repository name, a colon and the tag, and to the creation time. *)
Theorem image_tag_tree_item {P : Type}
    (azureAccount : option AzureAccount) (parent : P)
    (subscription : Subscription) (registry : Registry) (serverUrl : string)
    (repositoryName tag : string) (created : Date) :
  let node := AzureImageTagNode.new azureAccount parent subscription registry
                serverUrl repositoryName tag created in
  AzureImageTagNode.label node = (repositoryName ++ ":" ++ tag)%string /\
  evalState AzureImageTagNode.getTreeItem node =
    {| vscode.label := formatTag (repositoryName ++ ":" ++ tag)%string created;
       vscode.collapsibleState := vscode.TreeItemCollapsibleState.None;
       vscode.contextValue := Some "azureImageTagNode"%string;
       vscode.iconPath := None;
       vscode.command := None |}.
Proof. split; reflexivity. Qed.

(** C9.  [getTreeItem] leaves its receiver as it found it, for each of
    the five node classes; and among the fields the classes declare,
    [parent] of [AzureRepositoryNode] is the only one that is not
    [readonly]. *)
Theorem getTreeItem_leaves_node_unchanged :
  (forall n : AzureRegistryNode.t,
      execState AzureRegistryNode.getTreeItem n = n) /\
  (forall (P : Type) (n : AzureRepositoryNode.t P),
      execState AzureRepositoryNode.getTreeItem n = n) /\
  (forall (P : Type) (n : AzureImageTagNode.t P),
      execState AzureImageTagNode.getTreeItem n = n) /\
  (forall n : AzureNotSignedInNode.t,
      execState AzureNotSignedInNode.getTreeItem n = n) /\
  (forall n : AzureLoadingNode.t,
      execState AzureLoadingNode.getTreeItem n = n) /\
  assignableFields =
    [ {| declaredIn := ClsAzureRepositoryNode;
         fieldName := "parent";
         isReadonly := false |} ].
Proof. repeat (split; [reflexivity|]); reflexivity. Qed.

Lemma only_parent_is_assignable (d : FieldDecl) :
  In d declaredFields ->
  isReadonly d = false ->
  declaredIn d = ClsAzureRepositoryNode /\ fieldName d = "parent"%string.
Proof.
  intros Hin Hro.
  assert (Hd : In d assignableFields).
  { unfold assignableFields; apply filter_In; rewrite Hro; auto. }
  cbv in Hd; destruct Hd as [<-|[]]; split; reflexivity.
Qed.

End WithCollaborators.

Lemma registry_children_task_then_repositories_witness :
  exists task nodes,
    @AzureRegistryNode_getChildren sampleTypes sampleCollaborators
      sample_registry_node sample_registry_node
      = inr (Some (OfTaskRootNode task :: map OfAzureRepositoryNode nodes)) /\
    map (@AzureRepositoryNode.label _ _) nodes = ["app"; "base"]%string.
Proof.
  destruct (@registry_children_task_then_repositories sampleTypes sampleCollaborators
              sample_registry_node sample_registry_node "account"%string
              [ {| name := "app" |}; {| name := "base" |} ] eq_refl eq_refl)
    as (task & nodes & E & _ & _ & _ & L).
  exists task, nodes; split; [exact E | exact L].
Defined.

Lemma registry_children_without_account_witness :
  @AzureRegistryNode_getChildren sampleTypes sampleCollaborators
    sample_signed_out_node sample_signed_out_node = inr (Some []).
Proof.
  exact (proj1 (@registry_children_without_account sampleTypes sampleCollaborators
                  sample_signed_out_node sample_signed_out_node eq_refl)).
Defined.

Lemma repository_children_one_per_image_witness :
  exists nodes,
    @AzureRepositoryNode_getChildren sampleTypes sampleCollaborators
      (sample_repository_node "app") (sample_repository_node "app") = inr (Some nodes) /\
    map (@AzureImageTagNode.label _ _) nodes = ["app:latest"]%string.
Proof.
  destruct (@repository_children_one_per_image sampleTypes sampleCollaborators
              (sample_repository_node "app") (sample_repository_node "app")
              {| name := "app" |} [sample_image {| name := "app" |}] eq_refl eq_refl)
    as (nodes & E & _ & L & _).
  exists nodes; split; [exact E | exact L].
Defined.

(** C2 on the sample registry.  The listing names the repositories [app]
    and [base]; the repository nodes carry these names as labels, while
    the [repositoryName] field of both holds [myregistry], the label of
    the registry node. *)
Theorem registry_children_repositoryName_is_registry_label :
  exists children,
    @AzureRegistryNode_getChildren sampleTypes sampleCollaborators
      sample_registry_node sample_registry_node = inr (Some children) /\
    @getRepositoriesByRegistry sampleTypes sampleCollaborators
      (AzureRegistryNode.registry sample_registry_node)
      = inr [ {| name := "app" |}; {| name := "base" |} ] /\
    map NodeBase_label children = ["Tasks"; "app"; "base"]%string /\
    repositoryNames children = ["myregistry"; "myregistry"]%string /\
    repositoryNames children <> ["app"; "base"]%string.
Proof.
  eexists; split; [reflexivity|].
  repeat split; discriminate.
Qed.

End AzureRegistryNodesFacts.

(** ** More on the explorer nodes *)

Module AzureRegistryNodesMore.
Import AzureRegistryNodesFacts.

Local Open Scope list_scope.

(** *** Labels of image tag nodes *)

(** X1.  A label [name:tag] gives back the repository name and the tag it
    was made of, as long as repository names hold no colon: two image tag
    labels are equal only for equal names and equal tags. *)
Theorem image_label_determines_name_and_tag (r r' t t' : string) :
  has_colon r = false ->
  has_colon r' = false ->
  AzureImageTagNode.getImageNameWithTag r t = AzureImageTagNode.getImageNameWithTag r' t' ->
  r = r' /\ t = t'.
Proof.
  unfold AzureImageTagNode.getImageNameWithTag.
  revert r'; induction r as [|c r IH]; intros [|c' r']; cbn [has_colon String.append].
  - intros _ _ [= ->]; auto.
  - intros _ Hc' [= <- _]; cbn in Hc'; discriminate.
  - intros Hc _ [= -> _]; cbn in Hc; discriminate.
  - intros Hc Hc' [= -> E].
    apply orb_false_elim in Hc as [_ Hc]; apply orb_false_elim in Hc' as [_ Hc'].
    destruct (IH r' Hc Hc' E) as [-> ->]; auto.
Qed.

Lemma image_label_determines_name_and_tag_witness :
  has_colon "app" = false /\
  AzureImageTagNode.getImageNameWithTag "app" "latest" = "app:latest"%string /\
  "app"%string = "app"%string /\ "latest"%string = "latest"%string.
Proof.
  split; [reflexivity|]; split; [reflexivity|].
  exact (image_label_determines_name_and_tag "app" "app" "latest" "latest"
           eq_refl eq_refl eq_refl).
Defined.

(** *** The callbacks *)

Lemma get_property_set_same (k v : string) (ctx : IActionContext) :
  get_property k (set_property k v ctx) = Some v.
Proof. unfold get_property, set_property; cbn; rewrite String.eqb_refl; reflexivity. Qed.

Lemma find_filter_other (k k' : string) (l : list (string * string)) :
  k' <> k ->
  find (fun kv => String.eqb (fst kv) k')
       (filter (fun kv => negb (String.eqb (fst kv) k)) l)
  = find (fun kv => String.eqb (fst kv) k') l.
Proof.
  intros Hk; induction l as [|[a b] l IH]; cbn; [reflexivity|].
  destruct (String.eqb_spec a k) as [->|Ha]; cbn.
  - destruct (String.eqb_spec k k') as [E|_]; [congruence | exact IH].
  - destruct (String.eqb a k'); [reflexivity | exact IH].
Qed.

Lemma get_property_set_other (k k' v : string) (ctx : IActionContext) :
  k' <> k -> get_property k' (set_property k v ctx) = get_property k' ctx.
Proof.
  intros Hk; unfold get_property, set_property; cbn.
  destruct (String.eqb_spec k k') as [E|_]; [congruence|].
  rewrite (find_filter_other k k' _ Hk); reflexivity.
Qed.

Section WithCollaborators.
Context `{C : Collaborators}.

Lemma registry_getChildren_wraps_callback (me element : AzureRegistryNode.t) :
  AzureRegistryNode_getChildren me element =
  callWithTelemetryAndErrorHandling "getChildren"
    (AzureRegistryNode_getChildren_callback me element).
Proof. reflexivity. Qed.

Lemma repository_getChildren_wraps_callback (me element : AzureRepositoryNode.t NodeBase) :
  AzureRepositoryNode_getChildren me element =
  callWithTelemetryAndErrorHandling "getChildren"
    (AzureRepositoryNode_getChildren_callback me element).
Proof. reflexivity. Qed.

(** What the registry callback returns, and the context it leaves. *)
Lemma registry_callback_run (me element : AzureRegistryNode.t) (ctx : IActionContext) :
  runStateT (AzureRegistryNode_getChildren_callback me element) ctx =
  let ctx' := set_property "source" "azureRegistryNodes" (set_suppressTelemetry true ctx) in
  match AzureRegistryNode.azureAccount me with
  | None => inr ([], ctx')
  | Some account =>
      match getRepositoriesByRegistry (AzureRegistryNode.registry element) with
      | inl e => inl e
      | inr repositories =>
          inr (OfTaskRootNode
                 (TaskRootNode.new "Tasks" (AzureRegistryNode.azureAccount element)
                    (AzureRegistryNode.subscription element)
                    (AzureRegistryNode.registry element))
               :: map (fun repository =>
                         OfAzureRepositoryNode
                           (AzureRepositoryNode.new
                              (name repository)
                              (OfAzureRegistryNode element)
                              (Some account)
                              (AzureRegistryNode.subscription element)
                              (AzureRegistryNode.registry element)
                              (AzureRegistryNode.label element)))
                      repositories,
               ctx')
      end
  end.
Proof.
  unfold AzureRegistryNode_getChildren_callback.
  destruct (AzureRegistryNode.azureAccount me) as [account|]; cbn; [|reflexivity].
  destruct (getRepositoriesByRegistry (AzureRegistryNode.registry element)); cbn;
    [reflexivity|].
  rewrite for_of_push_map; reflexivity.
Qed.

Lemma repository_callback_run (me element : AzureRepositoryNode.t NodeBase)
    (ctx : IActionContext) :
  runStateT (AzureRepositoryNode_getChildren_callback me element) ctx =
  let ctx' := set_property "source" "azureRepositoryNode" (set_suppressTelemetry true ctx) in
  match Repository_Create (AzureRepositoryNode.registry element)
                          (AzureRepositoryNode.label element) with
  | inl e => inl e
  | inr repo =>
      match getImagesByRepository repo with
      | inl e => inl e
      | inr images => inr (map (image_tag_node_of element) images, ctx')
      end
  end.
Proof.
  unfold AzureRepositoryNode_getChildren_callback; cbn.
  destruct (Repository_Create (AzureRepositoryNode.registry element)
                              (AzureRepositoryNode.label element)) as [e|repo]; cbn;
    [reflexivity|].
  destruct (getImagesByRepository repo) as [e|images]; cbn; [reflexivity|].
  rewrite for_of_push_map; reflexivity.
Qed.

(** The children of a repository node, written out. *)
Lemma repository_children (me element : AzureRepositoryNode.t NodeBase)
    (repo : Repository) (images : list AzureImage) :
  Repository_Create (AzureRepositoryNode.registry element)
                    (AzureRepositoryNode.label element) = inr repo ->
  getImagesByRepository repo = inr images ->
  AzureRepositoryNode_getChildren me element
  = inr (Some (map (image_tag_node_of element) images)).
Proof.
  intros Hrepo Himages; rewrite repository_getChildren_wraps_callback.
  apply callWithTelemetryAndErrorHandling_returns; intros ctx.
  rewrite repository_callback_run, Hrepo, Himages; eexists; reflexivity.
Qed.

(** X2.  Every child of a registry node refers back to it: the task root
    node carries the account, subscription and registry of [element], and the
    repository node made for a repository of the listing is labelled with
    that repository's name, has [element] as its parent, the account of the
    receiver, and the subscription and registry of [element]. *)
Theorem registry_children_point_back (me element : AzureRegistryNode.t)
    (account : AzureAccount) (repositories : list Repository) :
  AzureRegistryNode.azureAccount me = Some account ->
  getRepositoriesByRegistry (AzureRegistryNode.registry element) = inr repositories ->
  exists (task : TaskRootNode.t) (nodes : list (AzureRepositoryNode.t NodeBase)),
    AzureRegistryNode_getChildren me element =
      inr (Some (OfTaskRootNode task :: map OfAzureRepositoryNode nodes)) /\
    TaskRootNode.azureAccount task = AzureRegistryNode.azureAccount element /\
    TaskRootNode.subscription task = AzureRegistryNode.subscription element /\
    TaskRootNode.registry task = AzureRegistryNode.registry element /\
    Forall2 (fun repository node =>
               AzureRepositoryNode.label node = name repository /\
               AzureRepositoryNode.parent node = OfAzureRegistryNode element /\
               AzureRepositoryNode.azureAccount node = Some account /\
               AzureRepositoryNode.subscription node = AzureRegistryNode.subscription element /\
               AzureRepositoryNode.registry node = AzureRegistryNode.registry element /\
               AzureRepositoryNode.contextValue node = "azureRepositoryNode"%string)
            repositories nodes.
Proof.
  intros Hacc Hrepos; eexists; eexists; split.
  - rewrite (registry_children me element account repositories Hacc Hrepos).
    rewrite <- (map_map _ OfAzureRepositoryNode); reflexivity.
  - repeat (split; [reflexivity|]).
    clear Hrepos; induction repositories as [|r rs IH]; cbn [map]; constructor;
      [repeat split | exact IH].
Qed.

(** X3.  Every child of a repository node refers back to it and to its
    image: the node made for an image of the listing has [element] as its
    parent and [element]'s account, the image's subscription and registry,
    the login server of that registry as server URL, and the image's
    repository name, tag and creation time. *)
Theorem repository_children_point_back (me element : AzureRepositoryNode.t NodeBase)
    (repo : Repository) (images : list AzureImage) :
  Repository_Create (AzureRepositoryNode.registry element)
                    (AzureRepositoryNode.label element) = inr repo ->
  getImagesByRepository repo = inr images ->
  exists nodes : list (AzureImageTagNode.t NodeBase),
    AzureRepositoryNode_getChildren me element = inr (Some nodes) /\
    Forall2 (fun img node =>
               AzureImageTagNode.parent node = OfAzureRepositoryNode element /\
               AzureImageTagNode.azureAccount node = AzureRepositoryNode.azureAccount element /\
               AzureImageTagNode.subscription node = img_subscription img /\
               AzureImageTagNode.registry node = img_registry img /\
               AzureImageTagNode.serverUrl node = getLoginServer (img_registry img) /\
               AzureImageTagNode.repositoryName node = name (img_repository img) /\
               AzureImageTagNode.tag node = img_tag img /\
               AzureImageTagNode.created node = img_created img /\
               AzureImageTagNode.contextValue node = "azureImageTagNode"%string)
            images nodes.
Proof.
  intros Hrepo Himages; eexists; split.
  - exact (repository_children me element repo images Hrepo Himages).
  - clear Himages; induction images as [|img imgs IH]; cbn [map]; constructor;
      [repeat split | exact IH].
Qed.

(** X4.  When the account is present and the repository listing rejects,
    the registry callback throws that very error, whatever the context: no
    child list, not even the task root node, is returned. *)
Theorem registry_callback_rethrows_listing_error (me element : AzureRegistryNode.t)
    (account : AzureAccount) (e : Error) (ctx : IActionContext) :
  AzureRegistryNode.azureAccount me = Some account ->
  getRepositoriesByRegistry (AzureRegistryNode.registry element) = inl e ->
  runStateT (AzureRegistryNode_getChildren_callback me element) ctx = inl e.
Proof.
  intros Hacc Hrepos; rewrite registry_callback_run, Hacc, Hrepos; reflexivity.
Qed.

(** X5.  The repository callback throws the first rejection it meets: the
    error of [Repository.Create], in which case the image listing is not
    consulted, or else the error of the image listing. *)
Theorem repository_callback_rethrows_first_error
    (me element : AzureRepositoryNode.t NodeBase) (e : Error) (ctx : IActionContext) :
  Repository_Create (AzureRepositoryNode.registry element)
                    (AzureRepositoryNode.label element) = inl e \/
  (exists repo,
      Repository_Create (AzureRepositoryNode.registry element)
                        (AzureRepositoryNode.label element) = inr repo /\
      getImagesByRepository repo = inl e) ->
  runStateT (AzureRepositoryNode_getChildren_callback me element) ctx = inl e.
Proof.
  intros [Hrepo | (repo & Hrepo & Himages)]; rewrite repository_callback_run, Hrepo;
    [reflexivity|].
  rewrite Himages; reflexivity.
Qed.

(** X6.  When the registry callback returns, the context it was run on has
    [suppressTelemetry] set, its [source] property is [azureRegistryNodes]
    whatever it was before, and every other property is as it was. *)
Theorem registry_callback_marks_context (me element : AzureRegistryNode.t)
    (ctx ctx' : IActionContext) (children : list NodeBase) :
  runStateT (AzureRegistryNode_getChildren_callback me element) ctx = inr (children, ctx') ->
  suppressTelemetry ctx' = true /\
  get_property "source" ctx' = Some "azureRegistryNodes"%string /\
  forall k, k <> "source"%string -> get_property k ctx' = get_property k ctx.
Proof.
  rewrite registry_callback_run; cbn zeta.
  assert (Hctx : forall c, c = set_property "source" "azureRegistryNodes"
                                 (set_suppressTelemetry true ctx) ->
                 suppressTelemetry c = true /\
                 get_property "source" c = Some "azureRegistryNodes"%string /\
                 forall k, k <> "source"%string -> get_property k c = get_property k ctx).
  { intros c ->; split; [reflexivity|]; split; [apply get_property_set_same|].
    intros k Hk; rewrite (get_property_set_other _ _ _ _ Hk); reflexivity. }
  destruct (AzureRegistryNode.azureAccount me).
  - destruct (getRepositoriesByRegistry (AzureRegistryNode.registry element));
      [discriminate|].
    intros [= _ <-]; apply Hctx; reflexivity.
  - intros [= _ <-]; apply Hctx; reflexivity.
Qed.

(** X7.  The same for the repository callback, with [azureRepositoryNode]
    as the [source]. *)
Theorem repository_callback_marks_context (me element : AzureRepositoryNode.t NodeBase)
    (ctx ctx' : IActionContext) (children : list (AzureImageTagNode.t NodeBase)) :
  runStateT (AzureRepositoryNode_getChildren_callback me element) ctx = inr (children, ctx') ->
  suppressTelemetry ctx' = true /\
  get_property "source" ctx' = Some "azureRepositoryNode"%string /\
  forall k, k <> "source"%string -> get_property k ctx' = get_property k ctx.
Proof.
  rewrite repository_callback_run; cbn zeta.
  destruct (Repository_Create (AzureRepositoryNode.registry element)
                              (AzureRepositoryNode.label element)) as [e|repo];
    [discriminate|].
  destruct (getImagesByRepository repo); [discriminate|].
  intros [= _ <-]; split; [reflexivity|]; split; [apply get_property_set_same|].
  intros k Hk; rewrite (get_property_set_other _ _ _ _ Hk); reflexivity.
Qed.

(** X8.  What the tree shows under a registry: the tree items of the
    repository children are, in the order of the listing, collapsed items
    labelled with the repository names, tagged [azureRepositoryNode] and
    carrying the repository icons. *)
Theorem registry_children_tree_items (me element : AzureRegistryNode.t)
    (account : AzureAccount) (repositories : list Repository) :
  AzureRegistryNode.azureAccount me = Some account ->
  getRepositoriesByRegistry (AzureRegistryNode.registry element) = inr repositories ->
  exists (task : TaskRootNode.t) (nodes : list (AzureRepositoryNode.t NodeBase)),
    AzureRegistryNode_getChildren me element =
      inr (Some (OfTaskRootNode task :: map OfAzureRepositoryNode nodes)) /\
    map (evalState AzureRepositoryNode.getTreeItem) nodes =
    map (fun repository =>
           {| vscode.label := name repository;
              vscode.collapsibleState := vscode.TreeItemCollapsibleState.Collapsed;
              vscode.contextValue := Some "azureRepositoryNode"%string;
              vscode.iconPath :=
                Some {| vscode.light :=
                          path_join [imagesPath; "light"; "Repository_16x.svg"]%string;
                        vscode.dark :=
                          path_join [imagesPath; "dark"; "Repository_16x.svg"]%string |};
              vscode.command := None |})
        repositories.
Proof.
  intros Hacc Hrepos; eexists; eexists; split.
  - rewrite (registry_children me element account repositories Hacc Hrepos).
    rewrite <- (map_map _ OfAzureRepositoryNode); reflexivity.
  - rewrite map_map; reflexivity.
Qed.

(** X9.  What the tree shows under a repository: the tree items of the
    children are, in the order of the listing, leaves labelled by
    [formatTag] from [name:tag] and the creation time of each image, tagged
    [azureImageTagNode], without icon or command. *)
Theorem repository_children_tree_items (me element : AzureRepositoryNode.t NodeBase)
    (repo : Repository) (images : list AzureImage) :
  Repository_Create (AzureRepositoryNode.registry element)
                    (AzureRepositoryNode.label element) = inr repo ->
  getImagesByRepository repo = inr images ->
  exists nodes : list (AzureImageTagNode.t NodeBase),
    AzureRepositoryNode_getChildren me element = inr (Some nodes) /\
    map (evalState AzureImageTagNode.getTreeItem) nodes =
    map (fun img =>
           {| vscode.label :=
                formatTag (name (img_repository img) ++ ":" ++ img_tag img)%string
                          (img_created img);
              vscode.collapsibleState := vscode.TreeItemCollapsibleState.None;
              vscode.contextValue := Some "azureImageTagNode"%string;
              vscode.iconPath := None;
              vscode.command := None |})
        images.
Proof.
  intros Hrepo Himages; eexists; split.
  - exact (repository_children me element repo images Hrepo Himages).
  - rewrite map_map; reflexivity.
Qed.

(** X10.  Expanding a registry and then one of its repository children asks
    for the images of that repository: the child made for repository [r] of
    the listing creates its handle from [element]'s registry and [r]'s name
    (its label; the [repositoryName] field is not read), and its children
    are the image tag nodes of the images listed for that handle. *)
Theorem expanding_a_repository_child (me element : AzureRegistryNode.t)
    (account : AzureAccount) (repositories : list Repository)
    (r repo : Repository) (images : list AzureImage) :
  AzureRegistryNode.azureAccount me = Some account ->
  getRepositoriesByRegistry (AzureRegistryNode.registry element) = inr repositories ->
  In r repositories ->
  Repository_Create (AzureRegistryNode.registry element) (name r) = inr repo ->
  getImagesByRepository repo = inr images ->
  exists (children : list NodeBase) (node : AzureRepositoryNode.t NodeBase),
    AzureRegistryNode_getChildren me element = inr (Some children) /\
    In (OfAzureRepositoryNode node) children /\
    AzureRepositoryNode.label node = name r /\
    AzureRepositoryNode_getChildren node node =
      inr (Some (map (image_tag_node_of node) images)) /\
    map (@AzureImageTagNode.label _ _) (map (image_tag_node_of node) images) =
      map (fun img => (name (img_repository img) ++ ":" ++ img_tag img)%string) images.
Proof.
  intros Hacc Hrepos Hin Hrepo Himages.
  eexists; eexists; split; [|split; [|split; [|split]]].
  - exact (registry_children me element account repositories Hacc Hrepos).
  - right; apply in_map_iff; exists r; split; [reflexivity | exact Hin].
  - reflexivity.
  - apply (repository_children _ _ repo images); [exact Hrepo | exact Himages].
  - rewrite map_map; reflexivity.
Qed.

(** X17.  Which tree items can be expanded and how they are tagged: the
    items of registry and repository nodes are collapsed and carry the
    context value of their class; the item of an image tag node is a leaf
    with its class's context value; the items of the two sentinel nodes are
    leaves without a context value (the nodes declare one, the items leave it
    out), and only the sign-in item carries a command, the Azure login,
    titled like the item. *)
Theorem tree_items_by_node_class {P : Type}
    (label : string) (azureAccount : option AzureAccount)
    (registry : Registry) (subscription : Subscription) (parent : P)
    (repositoryName serverUrl tag : string) (created : Date) :
  let registryItem :=
    evalState AzureRegistryNode.getTreeItem
      (AzureRegistryNode.new label azureAccount registry subscription) in
  let repositoryItem :=
    evalState AzureRepositoryNode.getTreeItem
      (AzureRepositoryNode.new label parent azureAccount subscription registry
         repositoryName) in
  let imageItem :=
    evalState AzureImageTagNode.getTreeItem
      (AzureImageTagNode.new azureAccount parent subscription registry serverUrl
         repositoryName tag created) in
  let signInItem := evalState AzureNotSignedInNode.getTreeItem AzureNotSignedInNode.new in
  let loadingItem := evalState AzureLoadingNode.getTreeItem AzureLoadingNode.new in
  (vscode.label registryItem = label /\
   vscode.collapsibleState registryItem = vscode.TreeItemCollapsibleState.Collapsed /\
   vscode.contextValue registryItem = Some "azureRegistryNode"%string) /\
  (vscode.label repositoryItem = label /\
   vscode.collapsibleState repositoryItem = vscode.TreeItemCollapsibleState.Collapsed /\
   vscode.contextValue repositoryItem = Some "azureRepositoryNode"%string) /\
  (vscode.collapsibleState imageItem = vscode.TreeItemCollapsibleState.None /\
   vscode.contextValue imageItem = Some "azureImageTagNode"%string /\
   vscode.command imageItem = None) /\
  (vscode.label signInItem = "Sign in to Azure..."%string /\
   vscode.collapsibleState signInItem = vscode.TreeItemCollapsibleState.None /\
   vscode.contextValue signInItem = None /\
   vscode.command signInItem =
     Some {| vscode.title := vscode.label signInItem;
             vscode.command_id := "azure-account.login" |}) /\
  (vscode.label loadingItem = "Loading..."%string /\
   vscode.collapsibleState loadingItem = vscode.TreeItemCollapsibleState.None /\
   vscode.contextValue loadingItem = None /\
   vscode.command loadingItem = None).
Proof. cbv zeta; repeat split. Qed.

End WithCollaborators.

Lemma registry_children_point_back_witness :
  exists task nodes,
    @AzureRegistryNode_getChildren sampleTypes sampleCollaborators
      sample_registry_node sample_registry_node
      = inr (Some (OfTaskRootNode task :: map OfAzureRepositoryNode nodes)) /\
    @TaskRootNode.registry sampleTypes task = "myregistry"%string /\
    length nodes = 2.
Proof.
  destruct (@registry_children_point_back sampleTypes sampleCollaborators
              sample_registry_node sample_registry_node "account"%string
              [ {| name := "app" |}; {| name := "base" |} ] eq_refl eq_refl)
    as (task & nodes & E & _ & _ & Hreg & F).
  exists task, nodes; split; [exact E|]; split; [exact Hreg|].
  symmetry; exact (Forall2_length F).
Defined.

Lemma repository_children_point_back_witness :
  exists nodes,
    @AzureRepositoryNode_getChildren sampleTypes sampleCollaborators
      (sample_repository_node "app") (sample_repository_node "app") = inr (Some nodes) /\
    length nodes = 1.
Proof.
  destruct (@repository_children_point_back sampleTypes sampleCollaborators
              (sample_repository_node "app") (sample_repository_node "app")
              {| name := "app" |} [sample_image {| name := "app" |}] eq_refl eq_refl)
    as (nodes & E & F).
  exists nodes; split; [exact E|].
  symmetry; exact (Forall2_length F).
Defined.

Lemma registry_callback_rethrows_listing_error_witness :
  runStateT (@AzureRegistryNode_getChildren_callback sampleTypes offlineCollaborators
               sample_registry_node sample_registry_node) sample_context
  = inl unreachable.
Proof.
  exact (@registry_callback_rethrows_listing_error sampleTypes offlineCollaborators
           sample_registry_node sample_registry_node "account"%string unreachable
           sample_context eq_refl eq_refl).
Defined.

Lemma repository_callback_rethrows_first_error_witness :
  runStateT (@AzureRepositoryNode_getChildren_callback sampleTypes offlineCollaborators
               (sample_repository_node "app") (sample_repository_node "app")) sample_context
  = inl unreachable.
Proof.
  exact (@repository_callback_rethrows_first_error sampleTypes offlineCollaborators
           (sample_repository_node "app") (sample_repository_node "app") unreachable
           sample_context (or_introl eq_refl)).
Defined.

Lemma registry_callback_marks_context_witness :
  exists children ctx',
    runStateT (@AzureRegistryNode_getChildren_callback sampleTypes sampleCollaborators
                 sample_registry_node sample_registry_node) sample_context
    = inr (children, ctx') /\
    get_property "source" ctx' = Some "azureRegistryNodes"%string /\
    get_property "isActivationEvent" ctx' = Some "false"%string.
Proof.
  eexists; eexists; split; [reflexivity|].
  destruct (@registry_callback_marks_context sampleTypes sampleCollaborators
              sample_registry_node sample_registry_node sample_context _ _ eq_refl)
    as (_ & Hsource & Hother).
  split; [exact Hsource|].
  rewrite (Hother "isActivationEvent"%string) by discriminate; reflexivity.
Defined.

Lemma repository_callback_marks_context_witness :
  exists children ctx',
    runStateT (@AzureRepositoryNode_getChildren_callback sampleTypes sampleCollaborators
                 (sample_repository_node "app") (sample_repository_node "app")) sample_context
    = inr (children, ctx') /\
    get_property "source" ctx' = Some "azureRepositoryNode"%string /\
    get_property "isActivationEvent" ctx' = Some "false"%string.
Proof.
  eexists; eexists; split; [reflexivity|].
  destruct (@repository_callback_marks_context sampleTypes sampleCollaborators
              (sample_repository_node "app") (sample_repository_node "app")
              sample_context _ _ eq_refl)
    as (_ & Hsource & Hother).
  split; [exact Hsource|].
  rewrite (Hother "isActivationEvent"%string) by discriminate; reflexivity.
Defined.

Lemma registry_children_tree_items_witness :
  exists task nodes,
    @AzureRegistryNode_getChildren sampleTypes sampleCollaborators
      sample_registry_node sample_registry_node
      = inr (Some (OfTaskRootNode task :: map OfAzureRepositoryNode nodes)) /\
    map (fun n => vscode.label
                    (evalState (@AzureRepositoryNode.getTreeItem sampleTypes _) n)) nodes
    = ["app"; "base"]%string.
Proof.
  destruct (@registry_children_tree_items sampleTypes sampleCollaborators
              sample_registry_node sample_registry_node "account"%string
              [ {| name := "app" |}; {| name := "base" |} ] eq_refl eq_refl)
    as (task & nodes & E & Hitems).
  exists task, nodes; split; [exact E|].
  rewrite <- (map_map (evalState AzureRepositoryNode.getTreeItem) vscode.label), Hitems.
  reflexivity.
Defined.

Lemma repository_children_tree_items_witness :
  exists nodes,
    @AzureRepositoryNode_getChildren sampleTypes sampleCollaborators
      (sample_repository_node "app") (sample_repository_node "app") = inr (Some nodes) /\
    map (fun n => vscode.label
                    (evalState (@AzureImageTagNode.getTreeItem sampleTypes
                                  sampleCollaborators _) n)) nodes
    = ["app:latest (a moment ago)"]%string.
Proof.
  destruct (@repository_children_tree_items sampleTypes sampleCollaborators
              (sample_repository_node "app") (sample_repository_node "app")
              {| name := "app" |} [sample_image {| name := "app" |}] eq_refl eq_refl)
    as (nodes & E & Hitems).
  exists nodes; split; [exact E|].
  rewrite <- (map_map (evalState AzureImageTagNode.getTreeItem) vscode.label), Hitems.
  reflexivity.
Defined.

Lemma expanding_a_repository_child_witness :
  exists children node,
    @AzureRegistryNode_getChildren sampleTypes sampleCollaborators
      sample_registry_node sample_registry_node = inr (Some children) /\
    In (OfAzureRepositoryNode node) children /\
    exists images,
      @AzureRepositoryNode_getChildren sampleTypes sampleCollaborators node node
        = inr (Some images) /\
      map (@AzureImageTagNode.label _ _) images = ["app:latest"]%string.
Proof.
  destruct (@expanding_a_repository_child sampleTypes sampleCollaborators
              sample_registry_node sample_registry_node "account"%string
              [ {| name := "app" |}; {| name := "base" |} ]
              {| name := "app" |} {| name := "app" |} [sample_image {| name := "app" |}]
              eq_refl eq_refl (or_introl eq_refl) eq_refl eq_refl)
    as (children & node & E & Hin & _ & Hchildren & Hlabels).
  exists children, node; split; [exact E|]; split; [exact Hin|].
  eexists; split; [exact Hchildren | exact Hlabels].
Defined.

End AzureRegistryNodesMore.

(** ** The restart command *)

Module RestartContainerFacts.
Import RestartContainer.

Local Open Scope list_scope.

(** *** One callback *)

(** The closure after the callback has run, written out. *)
Lemma callback_execState (err : option Error) (s : Closure) :
  execState (callback err) s =
  let last := Nat.eqb (containerCounter s + 1) (numContainers s) in
  let p := match err with
           | Some _ => settle_promise Rejected (promise s)
           | None => promise s
           end in
  {| numContainers := numContainers s;
     containerCounter := containerCounter s + 1;
     promise := if last then settle_promise Fulfilled p else p;
     inFlight := inFlight s;
     trace := trace s ++ [Increment] ++ error_effects err ++ completion_effects last |}.
Proof.
  destruct s as [n c p fl tr]; destruct err as [e|]; unfold execState; cbn;
    destruct (Nat.eqb (c + 1) n); cbn; rewrite <- ?app_assoc; reflexivity.
Qed.

Lemma take_out_length (id : string) (ids rest : list string) :
  take_out id ids = Some rest -> length ids = S (length rest).
Proof.
  revert rest; induction ids as [|x ids IH]; intros rest; cbn; [discriminate|].
  destruct (String.eqb x id).
  - intros [= <-]; reflexivity.
  - destruct (take_out id ids) as [rest'|]; [|discriminate].
    intros [= <-]; cbn; rewrite (IH rest' eq_refl); reflexivity.
Qed.

Lemma take_out_head (id : string) (ids : list string) :
  take_out id (id :: ids) = Some ids.
Proof. cbn; rewrite String.eqb_refl; reflexivity. Qed.

(** What one delivery does to the closure. *)
Lemma deliver_inv (d : Delivery) (s s' : Closure) :
  deliver d s = Some s' ->
  exists rest,
    take_out (target d) (inFlight s) = Some rest /\
    let last := Nat.eqb (containerCounter s + 1) (numContainers s) in
    let p := match outcome d with
             | Some _ => settle_promise Rejected (promise s)
             | None => promise s
             end in
    s' = {| numContainers := numContainers s;
            containerCounter := containerCounter s + 1;
            promise := if last then settle_promise Fulfilled p else p;
            inFlight := rest;
            trace := trace s ++ [Increment] ++ error_effects (outcome d)
                       ++ completion_effects last |}.
Proof.
  unfold deliver; destruct (take_out (target d) (inFlight s)) as [rest|]; [|discriminate].
  intros [= <-]; exists rest; split; [reflexivity|].
  rewrite callback_execState; reflexivity.
Qed.

(** *** The invariant *)

Ltac split_tests :=
  repeat match goal with
         | |- context [Nat.eqb ?a ?b] => destruct (Nat.eqb_spec a b)
         | |- context [Nat.ltb ?a ?b] => destruct (Nat.ltb_spec a b)
         | H : context [Nat.eqb ?a ?b] |- _ => destruct (Nat.eqb_spec a b)
         | H : context [Nat.ltb ?a ?b] |- _ => destruct (Nat.ltb_spec a b)
         end.

Lemma deliver_consistent (d : Delivery) (s s' : Closure) :
  consistent s -> deliver d s = Some s' -> consistent s'.
Proof.
  intros [Hfl Hinc Hrst Hrsv Hrf Hp] Hd.
  destruct (deliver_inv _ _ _ Hd) as (rest & Ht & ->).
  apply take_out_length in Ht.
  unfold count in *.
  constructor; unfold count;
    cbn [numContainers containerCounter promise inFlight trace];
    rewrite ?filter_app, ?length_app, ?Hp;
    destruct (outcome d) as [e|]; split_tests;
    cbn [filter length app is_resolve is_reject is_refresh is_increment is_restart
         error_effects completion_effects settle_promise andb] in *;
    try lia; try reflexivity.
Qed.

(** *** The executor *)

Lemma forEach_restart (cs : list ContainerDesc) (s : Closure) :
  execState (forEach cs (fun container => restart (Id container))) s =
  {| numContainers := numContainers s;
     containerCounter := containerCounter s;
     promise := promise s;
     inFlight := inFlight s ++ map Id cs;
     trace := trace s ++ map (fun c => Restart (Id c)) cs |}.
Proof.
  revert s; induction cs as [|c cs IH]; intros s.
  - destruct s; unfold execState; cbn; rewrite !app_nil_r; reflexivity.
  - unfold execState in *; cbn [forEach]; cbn [bind Monad_state runState].
    destruct (runState (restart (Id c)) s) as [u s1] eqn:E.
    rewrite IH. unfold restart in E; cbn in E.
    injection E as _ <-; cbn; rewrite <- !app_assoc; reflexivity.
Qed.

Lemma launch_eq (cs : list ContainerDesc) :
  launch cs =
  {| numContainers := length cs;
     containerCounter := 0;
     promise := Pending;
     inFlight := map Id cs;
     trace := map (fun c => Restart (Id c)) cs
                ++ [SetStatusBarMessage "Docker: Restarting Container(s)..."] |}.
Proof.
  unfold launch, executor.
  pose proof (forEach_restart cs (fresh cs)) as E; unfold execState in *.
  cbn [bind Monad_state runState].
  destruct (runState (forEach cs (fun container => restart (Id container))) (fresh cs))
    as [u s1]; cbn [snd] in E; subst s1; reflexivity.
Qed.

Lemma filter_restarts (kind : Effect -> bool) (b : bool) (cs : list ContainerDesc) :
  (forall id, kind (Restart id) = b) ->
  length (filter kind (map (fun c => Restart (Id c)) cs)) =
  if b then length cs else 0.
Proof.
  intros K; induction cs as [|c cs IH]; cbn [map filter length].
  - destruct b; reflexivity.
  - rewrite K; destruct b; cbn [length]; rewrite IH; reflexivity.
Qed.

Lemma launch_count (kind : Effect -> bool) (b : bool) (cs : list ContainerDesc) :
  (forall id, kind (Restart id) = b) ->
  kind (SetStatusBarMessage "Docker: Restarting Container(s)...") = false ->
  count kind (launch cs) = if b then length cs else 0.
Proof.
  intros K M; rewrite launch_eq; unfold count; cbn [trace].
  rewrite filter_app, length_app, (filter_restarts kind b cs K); cbn [filter].
  rewrite M; cbn [length]; lia.
Qed.

Lemma launch_consistent (cs : list ContainerDesc) : consistent (launch cs).
Proof.
  constructor;
    rewrite ?(launch_count is_increment false cs), ?(launch_count is_restart true cs),
      ?(launch_count is_resolve false cs), ?(launch_count is_refresh false cs),
      ?(launch_count is_reject false cs) by reflexivity;
    rewrite ?launch_eq; cbn [numContainers containerCounter promise inFlight];
    rewrite ?length_map; try reflexivity.
  destruct (Nat.eqb 0 (length cs)); reflexivity.
Qed.

(** *** Schedules *)

Lemma run_app (a b : list Delivery) (s : Closure) :
  run (a ++ b) s = match run a s with
                   | Some s' => run b s'
                   | None => None
                   end.
Proof.
  revert s; induction a as [|d a IH]; intros s; cbn [app run]; [reflexivity|].
  destruct (deliver d s); [apply IH | reflexivity].
Qed.

Lemma run_consistent (schedule : list Delivery) (s s' : Closure) :
  consistent s -> run schedule s = Some s' -> consistent s'.
Proof.
  revert s; induction schedule as [|d schedule IH]; intros s Hs; cbn [run].
  - intros [= <-]; exact Hs.
  - destruct (deliver d s) as [s1|] eqn:D; [|discriminate].
    apply IH, (deliver_consistent _ _ _ Hs D).
Qed.

(** The counter counts the deliveries, [reject()] is called once per failure. *)
Lemma run_counts (schedule : list Delivery) (s s' : Closure) :
  run schedule s = Some s' ->
  numContainers s' = numContainers s /\
  containerCounter s' = containerCounter s + length schedule /\
  count is_reject s' = count is_reject s + failures schedule.
Proof.
  revert s; induction schedule as [|d schedule IH]; intros s; cbn [run].
  - intros [= <-]; unfold failures; cbn; lia.
  - destruct (deliver d s) as [s1|] eqn:D; [|discriminate].
    intros R; destruct (IH _ R) as (Hn & Hc & Hr).
    destruct (deliver_inv _ _ _ D) as (rest & _ & ->).
    unfold count, failures, succeeded in *.
    cbn [numContainers containerCounter trace filter length] in *.
    rewrite Hn, Hc, Hr, !filter_app, !length_app.
    destruct (outcome d) as [e|];
      destruct (Nat.eqb (containerCounter s + 1) (numContainers s));
      cbn; lia.
Qed.

Lemma run_launch (cs : list ContainerDesc) (schedule : list Delivery) (s : Closure) :
  run schedule (launch cs) = Some s ->
  consistent s /\
  numContainers s = length cs /\
  containerCounter s = length schedule /\
  count is_reject s = failures schedule.
Proof.
  intros R; split; [exact (run_consistent _ _ _ (launch_consistent cs) R)|].
  destruct (run_counts _ _ _ R) as (Hn & Hc & Hr).
  rewrite Hn, Hc, Hr, (launch_count is_reject false cs) by reflexivity.
  rewrite launch_eq; cbn; auto.
Qed.

Lemma failures_all_succeed (schedule : list Delivery) :
  forallb succeeded schedule = true -> failures schedule = 0.
Proof.
  unfold failures; induction schedule as [|d schedule IH]; cbn; [reflexivity|].
  intros H; apply andb_prop in H as [Hd Hs]; rewrite Hd; cbn; auto.
Qed.

(** Answering the calls in the order they were sent is a schedule. *)
Lemma run_in_order (cs : list ContainerDesc) (s : Closure) :
  inFlight s = map Id cs ->
  exists s', run (all_succeed_in_order cs) s = Some s'.
Proof.
  revert s; induction cs as [|c cs IH]; intros s Hs; cbn [all_succeed_in_order map run].
  - eauto.
  - unfold deliver; cbn [target outcome]; rewrite Hs; cbn [map]; rewrite take_out_head.
    apply IH; rewrite callback_execState; reflexivity.
Qed.

(** A rejected promise stays rejected. *)
Lemma deliver_rejected (d : Delivery) (s s' : Closure) :
  promise s = Rejected -> deliver d s = Some s' -> promise s' = Rejected.
Proof.
  intros Hp D; destruct (deliver_inv _ _ _ D) as (rest & _ & ->); cbn; rewrite Hp.
  destruct (outcome d), (Nat.eqb (containerCounter s + 1) (numContainers s)); reflexivity.
Qed.

Lemma run_rejected (schedule : list Delivery) (s s' : Closure) :
  promise s = Rejected -> run schedule s = Some s' -> promise s' = Rejected.
Proof.
  revert s; induction schedule as [|d schedule IH]; intros s Hp; cbn [run].
  - intros [= <-]; exact Hp.
  - destruct (deliver d s) as [s1|] eqn:D; [|discriminate].
    apply IH, (deliver_rejected _ _ _ Hp D).
Qed.

Lemma failures_firstn (k : nat) (schedule : list Delivery) :
  failures (firstn k schedule) <= failures schedule.
Proof.
  unfold failures; revert k; induction schedule as [|d schedule IH]; intros [|k];
    cbn [firstn filter length]; try lia.
  specialize (IH k); destruct (negb (succeeded d)); cbn [length]; lia.
Qed.

(** While a call is in flight [resolve()] has not been called. *)
Lemma in_flight_unresolved (s : Closure) (id : string) (rest : list string) :
  consistent s -> take_out id (inFlight s) = Some rest ->
  containerCounter s < numContainers s /\
  count is_resolve s = 0 /\
  promise s <> Fulfilled.
Proof.
  intros [Hfl _ _ Hrsv _ Hp] Ht; apply take_out_length in Ht.
  assert (Hlt : containerCounter s < numContainers s) by lia.
  destruct (Nat.eqb_spec (containerCounter s) (numContainers s)) as [E|_]; [lia|].
  cbn [andb] in Hrsv; rewrite Hrsv in Hp.
  repeat split; auto.
  rewrite Hp; destruct (Nat.ltb 0 (count is_reject s)); discriminate.
Qed.

(** *** The claims *)

(** C1, as amended.  When all [N >= 1] restart calls succeed, whatever the
    order of the answers: the promise behind the status-bar message is
    pending until the last answer and fulfilled by it, [resolve()] is called
    once and [reject()] never, and [refreshContainers] fires exactly once,
    in the last callback; no earlier callback fires it.  Such a run exists
    for every batch. *)
Theorem restart_all_succeed_refreshes_once (cs : list ContainerDesc) :
  1 <= length cs ->
  (exists s, run (all_succeed_in_order cs) (launch cs) = Some s) /\
  forall schedule s,
    forallb succeeded schedule = true ->
    length schedule = length cs ->
    run schedule (launch cs) = Some s ->
    promise s = Fulfilled /\
    count is_resolve s = 1 /\
    count is_reject s = 0 /\
    count is_refresh s = 1 /\
    forall k s_k,
      k < length cs ->
      run (firstn k schedule) (launch cs) = Some s_k ->
      promise s_k = Pending /\ count is_refresh s_k = 0.
Proof.
  intros Hn; split.
  { apply run_in_order; rewrite launch_eq; reflexivity. }
  intros schedule s Hok Hlen R.
  pose proof (failures_all_succeed _ Hok) as Hf.
  destruct (run_launch _ _ _ R) as ([_ _ _ Hrsv Hrf Hp] & Hnum & Hc & Hrj).
  rewrite Hf in Hrj.
  rewrite Hnum, Hc, Hlen, Nat.eqb_refl in Hrsv.
  destruct (Nat.ltb_spec 0 (length cs)) as [_|]; [|lia]; cbn [andb] in Hrsv.
  rewrite Hrj, Hrsv in Hp, Hrf; cbn in Hp, Hrf.
  split; [exact Hp|]. split; [exact Hrsv|]. split; [exact Hrj|]. split; [exact Hrf|].
  intros k s_k Hk Rk.
  pose proof (failures_firstn k schedule) as Hfk; rewrite Hf in Hfk.
  destruct (run_launch _ _ _ Rk) as ([_ _ _ Hrsv' Hrf' Hp'] & Hnum' & Hc' & Hrj').
  rewrite length_firstn, Hlen, Nat.min_l in Hc' by lia.
  rewrite Hnum', Hc' in Hrsv'.
  destruct (Nat.eqb_spec k (length cs)); [lia|]; cbn [andb] in Hrsv'.
  replace (failures (firstn k schedule)) with 0 in Hrj' by lia.
  rewrite Hrsv', Hrj' in Hp', Hrf'.
  split; [exact Hp' | exact Hrf'].
Qed.

(** C3.  With no container to restart no restart call is sent, so no
    callback can run: the closure stays as it was when the promise was
    handed to the status bar, with the promise pending and neither
    [refreshContainers] nor [resolve()] nor [reject()] called. *)
Theorem restart_nothing_never_settles :
  launch [] =
    {| numContainers := 0;
       containerCounter := 0;
       promise := Pending;
       inFlight := [];
       trace := [SetStatusBarMessage "Docker: Restarting Container(s)..."] |} /\
  restartContainer (inr []) CtxUndefined = inr (launch []) /\
  (forall d, deliver d (launch []) = None) /\
  (forall schedule,
      run schedule (launch []) =
      match schedule with
      | [] => Some (launch [])
      | _ :: _ => None
      end).
Proof.
  repeat split.
  intros [|d schedule]; reflexivity.
Qed.

(** C4.  A callback that reports an error bumps the counter, shows the
    error's message, fires [refreshContainers] and calls [reject()], in
    that order (the completion branch may follow when this was the last
    answer).  The promise is rejected as soon as this callback has run,
    while other calls may still be in flight; it was pending until then if
    every earlier answer was a success, and it stays rejected whatever
    comes later. *)
Theorem restart_failure_rejects_at_once
    (cs : list ContainerDesc) (before : list Delivery) (d : Delivery) (e : Error)
    (s s' : Closure) :
  run before (launch cs) = Some s ->
  outcome d = Some e ->
  deliver d s = Some s' ->
  containerCounter s' = containerCounter s + 1 /\
  (exists completion,
      trace s' = trace s
                   ++ [Increment; ShowErrorMessage (message e); RefreshContainers; Reject]
                   ++ completion /\
      (completion = [] \/ completion = [RefreshContainers; Resolve])) /\
  promise s' = Rejected /\
  (forallb succeeded before = true -> promise s = Pending) /\
  (forall after s'', run after s' = Some s'' -> promise s'' = Rejected).
Proof.
  intros R He D.
  destruct (run_launch _ _ _ R) as (Hs & Hnum & Hc & Hrj).
  destruct (deliver_inv _ _ _ D) as (rest & Ht & E).
  destruct (in_flight_unresolved _ _ _ Hs Ht) as (Hlt & Hrsv & Hnf).
  rewrite He in E; cbn zeta in E.
  assert (Hp' : promise s' = Rejected).
  { subst s'; cbn [promise].
    destruct (promise s); [| congruence |];
      destruct (Nat.eqb (containerCounter s + 1) (numContainers s)); reflexivity. }
  repeat split.
  - subst s'; reflexivity.
  - exists (completion_effects (Nat.eqb (containerCounter s + 1) (numContainers s))).
    split; [subst s'; reflexivity|].
    destruct (Nat.eqb (containerCounter s + 1) (numContainers s)); cbn; auto.
  - exact Hp'.
  - intros Hok; destruct Hs as [_ _ _ _ _ Hp].
    rewrite Hrj, (failures_all_succeed _ Hok), Hrsv in Hp; exact Hp.
  - intros after s'' R'; exact (run_rejected _ _ _ Hp' R').
Qed.

(** C10.  When the callback that reports an error is also the last one
    ([containerCounter] reaches [numContainers] in it), nothing returns
    after the error branch: the completion branch runs too, so
    [refreshContainers] fires twice in this one callback and [resolve()] is
    called after [reject()]; the promise is rejected all the same. *)
Theorem restart_last_callback_fails
    (cs : list ContainerDesc) (before : list Delivery) (d : Delivery) (e : Error)
    (s s' : Closure) :
  run before (launch cs) = Some s ->
  containerCounter s + 1 = length cs ->
  outcome d = Some e ->
  deliver d s = Some s' ->
  trace s' = trace s ++ [Increment; ShowErrorMessage (message e);
                         RefreshContainers; Reject; RefreshContainers; Resolve] /\
  count is_refresh s' = count is_refresh s + 2 /\
  promise s' = Rejected /\
  containerCounter s' = numContainers s' /\
  inFlight s' = [].
Proof.
  intros R Hlast He D.
  destruct (run_launch _ _ _ R) as (Hs & Hnum & Hc & Hrj).
  pose proof (deliver_consistent _ _ _ Hs D) as [Hfl' _ _ _ _ _].
  destruct (deliver_inv _ _ _ D) as (rest & Ht & E).
  destruct (in_flight_unresolved _ _ _ Hs Ht) as (Hlt & Hrsv & Hnf).
  rewrite He, Hnum, <- Hlast, Nat.eqb_refl in E; cbn in E.
  subst s'; unfold count; cbn [trace promise containerCounter numContainers inFlight] in *.
  rewrite filter_app, length_app; cbn.
  repeat split; try lia.
  - destruct (promise s); [reflexivity | congruence | reflexivity].
  - destruct rest; [reflexivity | cbn in Hfl'; lia].
Qed.

Lemma restart_all_succeed_refreshes_once_witness :
  1 <= length two_containers /\
  exists s,
    run (all_succeed_in_order two_containers) (launch two_containers) = Some s /\
    promise s = Fulfilled /\ count is_resolve s = 1 /\ count is_refresh s = 1.
Proof.
  assert (Hn : 1 <= length two_containers) by (cbn; lia).
  split; [exact Hn|].
  eexists; split; [reflexivity|].
  destruct (restart_all_succeed_refreshes_once two_containers Hn) as [_ H].
  destruct (H (all_succeed_in_order two_containers) _ eq_refl eq_refl eq_refl)
    as (Hp & Hrsv & _ & Hrf & _).
  exact (conj Hp (conj Hrsv Hrf)).
Defined.

(** C1 as stated fails on a batch of two: both restart calls succeed, the
    promise is fulfilled, and [refreshContainers] has fired once, which is
    less than the number of successes. *)
Lemma restart_two_successes_refresh_once :
  exists s,
    run (all_succeed_in_order two_containers) (launch two_containers) = Some s /\
    forallb succeeded (all_succeed_in_order two_containers) = true /\
    promise s = Fulfilled /\
    count is_refresh s = 1 /\
    ~ (length two_containers <= count is_refresh s).
Proof.
  eexists; split; [reflexivity|].
  repeat split; cbn; lia.
Qed.

Lemma restart_failure_rejects_at_once_witness :
  exists s',
    deliver {| target := "b"; outcome := Some no_such_container |} (launch two_containers)
      = Some s' /\
    inFlight s' = ["a"] /\
    promise s' = Rejected.
Proof.
  eexists; split; [reflexivity|]; split; [reflexivity|].
  exact (proj1 (proj2 (proj2
           (restart_failure_rejects_at_once two_containers []
              {| target := "b"; outcome := Some no_such_container |} no_such_container
              (launch two_containers) _ eq_refl eq_refl eq_refl)))).
Defined.

Lemma restart_last_callback_fails_witness :
  exists s s',
    run [{| target := "b"; outcome := None |}] (launch two_containers) = Some s /\
    deliver {| target := "a"; outcome := Some no_such_container |} s = Some s' /\
    count is_refresh s' = count is_refresh s + 2 /\
    promise s' = Rejected.
Proof.
  eexists; eexists; split; [reflexivity|]; split; [reflexivity|].
  destruct (restart_last_callback_fails two_containers
              [{| target := "b"; outcome := None |}]
              {| target := "a"; outcome := Some no_such_container |} no_such_container
              _ _ eq_refl eq_refl eq_refl eq_refl) as (_ & Hrf & Hp & _).
  exact (conj Hrf Hp).
Defined.

End RestartContainerFacts.

(** ** More on the restart command *)

Module RestartContainerMore.
Import RestartContainer RestartContainerFacts.

Local Open Scope list_scope.

(** *** Which answers a schedule may hold *)

Lemma take_out_perm (id : string) (ids rest : list string) :
  take_out id ids = Some rest -> Permutation ids (id :: rest).
Proof.
  revert rest; induction ids as [|x ids IH]; intros rest; cbn; [discriminate|].
  destruct (String.eqb_spec x id) as [->|_].
  - intros [= <-]; reflexivity.
  - destruct (take_out id ids) as [rest'|]; [|discriminate].
    intros [= <-]; rewrite (IH rest' eq_refl); apply perm_swap.
Qed.

Lemma take_out_in (id : string) (ids : list string) :
  In id ids -> exists rest, take_out id ids = Some rest.
Proof.
  induction ids as [|x ids IH]; cbn; [intros []|].
  destruct (String.eqb_spec x id) as [->|Hx]; [eauto|].
  intros [E|Hin]; [congruence|].
  destruct (IH Hin) as [rest ->]; eauto.
Qed.



Lemma run_of_perm (schedule : list Delivery) (s : Closure) :
  Permutation (map target schedule) (inFlight s) ->
  exists s', run schedule s = Some s' /\ inFlight s' = [].
Proof.
  revert s; induction schedule as [|d schedule IH]; intros s P; cbn [run map] in *.
  - exists s; split; [reflexivity|].
    apply Permutation_nil; exact P.
  - assert (Hin : In (target d) (inFlight s)).
    { apply (Permutation_in _ P); left; reflexivity. }
    destruct (take_out_in _ _ Hin) as [rest Ht].
    unfold deliver; rewrite Ht.
    apply IH; rewrite callback_execState; cbn [inFlight].
    apply Permutation_cons_inv with (a := target d).
    rewrite P; exact (take_out_perm _ _ _ Ht).
Qed.

(** *** What the callbacks leave in the trace *)

Lemma shown_messages_app (s : Closure) (later : list Effect) :
  shown_messages {| numContainers := numContainers s;
                    containerCounter := containerCounter s;
                    promise := promise s;
                    inFlight := inFlight s;
                    trace := trace s ++ later |}
  = shown_messages s
      ++ flat_map (fun e => match e with
                            | ShowErrorMessage msg => [msg]
                            | _ => []
                            end) later.
Proof. unfold shown_messages; cbn [trace]; apply flat_map_app. Qed.

Lemma run_shown_messages (schedule : list Delivery) (s s' : Closure) :
  run schedule s = Some s' ->
  shown_messages s' = shown_messages s ++ error_messages schedule.
Proof.
  revert s; induction schedule as [|d schedule IH]; intros s; cbn [run].
  - intros [= <-]; unfold error_messages; cbn; rewrite app_nil_r; reflexivity.
  - destruct (deliver d s) as [s1|] eqn:D; [|discriminate].
    intros R; rewrite (IH _ R).
    destruct (deliver_inv _ _ _ D) as (rest & _ & ->).
    unfold shown_messages, error_messages; cbn [trace flat_map].
    rewrite !flat_map_app, <- !app_assoc; f_equal.
    destruct (outcome d) as [e|];
      destruct (Nat.eqb (containerCounter s + 1) (numContainers s)); reflexivity.
Qed.

Lemma shown_messages_launch (cs : list ContainerDesc) : shown_messages (launch cs) = [].
Proof.
  rewrite launch_eq; unfold shown_messages; cbn [trace]; rewrite flat_map_app; cbn.
  rewrite app_nil_r; induction cs as [|c cs IH]; [reflexivity | exact IH].
Qed.

Lemma run_trace_extends (schedule : list Delivery) (s s' : Closure) :
  run schedule s = Some s' ->
  exists later, trace s' = trace s ++ later /\ forallb from_callback later = true.
Proof.
  revert s; induction schedule as [|d schedule IH]; intros s; cbn [run].
  - intros [= <-]; exists []; rewrite app_nil_r; auto.
  - destruct (deliver d s) as [s1|] eqn:D; [|discriminate].
    intros R; destruct (IH _ R) as (later & -> & Hlater).
    destruct (deliver_inv _ _ _ D) as (rest & _ & ->); cbn [trace].
    eexists; split; [rewrite <- app_assoc; reflexivity|].
    rewrite forallb_app, Hlater, andb_true_r.
    destruct (outcome d) as [e|];
      destruct (Nat.eqb (containerCounter s + 1) (numContainers s)); reflexivity.
Qed.

(** *** The properties *)


(** X12.  The answers may come in any order and with any outcomes: every
    list of deliveries whose targets are the containers of the batch, in
    some order, is a run, and it ends with no call in flight and the
    counter at [N]. *)
Theorem every_order_is_a_schedule (cs : list ContainerDesc) (schedule : list Delivery) :
  Permutation (map target schedule) (map Id cs) ->
  exists s,
    run schedule (launch cs) = Some s /\
    inFlight s = [] /\
    containerCounter s = length cs /\
    numContainers s = length cs.
Proof.
  intros P.
  destruct (run_of_perm schedule (launch cs)) as (s & R & Hfl).
  { rewrite launch_eq; exact P. }
  exists s; split; [exact R|]; split; [exact Hfl|].
  destruct (run_launch _ _ _ R) as ([Hsum _ _ _ _ _] & Hnum & _ & _).
  rewrite Hfl in Hsum; cbn in Hsum; lia.
Qed.

(** X13.  The promise after a run, whatever the order of the answers: it is
    rejected as soon as one answer carried an error, fulfilled when all [N]
    answers have arrived and none carried an error, and pending otherwise
    (so a call that is never answered keeps a batch without errors pending).
    [reject()] is called once per failure, [resolve()] once when all the
    answers have arrived (even if the promise is rejected by then), and
    [refreshContainers] fires once per failure and once more on
    completion. *)
Theorem promise_after_a_run
    (cs : list ContainerDesc) (schedule : list Delivery) (s : Closure) :
  run schedule (launch cs) = Some s ->
  containerCounter s = length schedule /\
  promise s = (if Nat.ltb 0 (failures schedule) then Rejected
               else if complete cs schedule then Fulfilled
               else Pending) /\
  count is_reject s = failures schedule /\
  count is_resolve s = (if complete cs schedule then 1 else 0) /\
  count is_refresh s = failures schedule + (if complete cs schedule then 1 else 0).
Proof.
  intros R.
  destruct (run_launch _ _ _ R) as ([_ _ _ Hrsv Hrf Hp] & Hnum & Hc & Hrj).
  assert (Hcomplete :
            Nat.eqb (containerCounter s) (numContainers s) && Nat.ltb 0 (containerCounter s)
            = complete cs schedule).
  { unfold complete; rewrite Hnum, Hc.
    destruct (Nat.eqb_spec (length schedule) (length cs)) as [->|_]; reflexivity. }
  rewrite Hcomplete in Hrsv.
  rewrite Hrj, Hrsv in Hp, Hrf.
  split; [exact Hc|]. split.
  - rewrite Hp; destruct (complete cs schedule); reflexivity.
  - split; [exact Hrj|]. split; [exact Hrsv | exact Hrf].
Qed.

(** X14.  Every error the engine reports is shown to the user, once and in
    the order the answers arrive: the messages handed to [showErrorMessage]
    are the messages of the schedule's errors. *)
Theorem every_error_is_shown
    (cs : list ContainerDesc) (schedule : list Delivery) (s : Closure) :
  run schedule (launch cs) = Some s ->
  shown_messages s = error_messages schedule.
Proof.
  intros R; rewrite (run_shown_messages _ _ _ R), shown_messages_launch; reflexivity.
Qed.

(** X15.  Restart calls are sent once per container, in the order of the
    batch, before the status-bar message is set, and never again: whatever
    answers arrive, the trace starts with these calls and the status-bar
    message, and everything after them comes from the callbacks. *)
Theorem restart_calls_are_never_resent
    (cs : list ContainerDesc) (schedule : list Delivery) (s : Closure) :
  run schedule (launch cs) = Some s ->
  exists later,
    trace s = map (fun c => Restart (Id c)) cs
                ++ [SetStatusBarMessage "Docker: Restarting Container(s)..."]
                ++ later /\
    forallb from_callback later = true /\
    count is_restart s = length cs.
Proof.
  intros R; destruct (run_trace_extends _ _ _ R) as (later & E & Hlater).
  destruct (run_launch _ _ _ R) as ([_ _ Hrst _ _ _] & Hnum & _ & _).
  exists later; split; [|split; [exact Hlater | lia]].
  rewrite E, launch_eq; cbn [trace]; rewrite <- app_assoc; reflexivity.
Qed.

(** X16.  The command on a single container node: the quick pick is not
    consulted (the batch is that one container even when the pick would
    throw), and the one answer settles everything: a success fulfils the
    promise, an error rejects it after its message is shown; either way the
    callback is the last one, so [refreshContainers] and [resolve()] close
    the trace. *)
Theorem restart_of_one_container_node
    (quickPick : Result (list ContainerDesc)) (c : ContainerDesc) (err : option Error) :
  restartContainer quickPick (CtxContainerNode (Some c)) = inr (launch [c]) /\
  deliver {| target := Id c; outcome := err |} (launch [c]) =
  Some {| numContainers := 1;
          containerCounter := 1;
          promise := match err with
                     | None => Fulfilled
                     | Some _ => Rejected
                     end;
          inFlight := [];
          trace := [Restart (Id c);
                    SetStatusBarMessage "Docker: Restarting Container(s)...";
                    Increment]
                     ++ error_effects err ++ [RefreshContainers; Resolve] |}.
Proof.
  split; [reflexivity|].
  unfold deliver; rewrite launch_eq; cbn [inFlight target outcome map].
  rewrite take_out_head, callback_execState; destruct err; reflexivity.
Qed.


Lemma every_order_is_a_schedule_witness :
  exists s,
    run [{| target := "b"; outcome := Some no_such_container |};
         {| target := "a"; outcome := None |}] (launch two_containers) = Some s /\
    inFlight s = [].
Proof.
  destruct (every_order_is_a_schedule two_containers
              [{| target := "b"; outcome := Some no_such_container |};
               {| target := "a"; outcome := None |}]
              (perm_swap "a"%string "b"%string []))
    as (s & R & Hfl & _).
  exists s; split; [exact R | exact Hfl].
Defined.

Lemma promise_after_a_run_witness :
  exists s,
    run [{| target := "b"; outcome := Some no_such_container |};
         {| target := "a"; outcome := None |}] (launch two_containers) = Some s /\
    promise s = Rejected /\
    count is_refresh s = 2.
Proof.
  eexists; split; [reflexivity|].
  destruct (promise_after_a_run two_containers
              [{| target := "b"; outcome := Some no_such_container |};
               {| target := "a"; outcome := None |}] _ eq_refl)
    as (_ & Hp & _ & _ & Hrf).
  exact (conj Hp Hrf).
Defined.

Lemma every_error_is_shown_witness :
  exists s,
    run [{| target := "b"; outcome := Some no_such_container |};
         {| target := "a"; outcome := None |}] (launch two_containers) = Some s /\
    shown_messages s = ["No such container"]%string.
Proof.
  eexists; split; [reflexivity|].
  exact (every_error_is_shown two_containers
           [{| target := "b"; outcome := Some no_such_container |};
            {| target := "a"; outcome := None |}] _ eq_refl).
Defined.

Lemma restart_calls_are_never_resent_witness :
  exists s,
    run [{| target := "b"; outcome := Some no_such_container |}]
        (launch two_containers) = Some s /\
    count is_restart s = 2.
Proof.
  eexists; split; [reflexivity|].
  destruct (restart_calls_are_never_resent two_containers
              [{| target := "b"; outcome := Some no_such_container |}] _ eq_refl)
    as (later & _ & _ & Hrst).
  exact Hrst.
Defined.

End RestartContainerMore.
